(** * get_up.py: the daily wake-up digest

    A shallow embedding of [get_up.py] and the properties of its
    aggregation pipeline: the year progress bar, the idempotency gate on the
    tracking issue, the two historical-event normalizers and their selector,
    the GitHub activity merger with its paged event stream, and the dispatch
    step of [main].

    Conventions.
    - A Python [str] is a [string] holding its UTF-8 bytes.  Substring
      search, concatenation and the two regular expressions of the program
      whose classes are ASCII ([<[^>]+>] and the GitHub link pattern) act on
      the bytes exactly as they act on the code points.  [\d] and [int]
      read the characters of the str, decoded from the bytes, and take
      every decimal digit of the Unicode database.
    - A Python [int] is a [Z].
    - A value decoded from JSON is a [json]; numbers are integers.
    - Code that can raise lives in the error monad [py]; [try/except
      Exception] is [catch].
    - An instant is a number of microseconds since the Unix epoch. *)

From Stdlib Require Import ZArith List String Ascii Bool Lia Permutation Sorted.
From Stdlib Require Import Floats Uint63 DecimalString.
From ExtLib Require Import Structures.Monad Structures.MonadExc Data.Monads.EitherMonad.
Import ListNotations MonadNotation.
Local Open Scope monad_scope.
Local Open Scope string_scope.
Local Open Scope Z_scope.
Set Warnings "-register-all".

(** ** Python values and exceptions *)

Inductive pyexn :=
| TypeError | ValueError | AttributeError | KeyError | IndexError
| OverflowError | RequestException.

(** A computation that returns an [A] or raises. *)
Definition py := sum pyexn.

Definition raises {A} (c : py A) : Prop := exists e, c = inl e.

(** [str(n)] for an [int]. *)
Definition str_of_int (n : Z) : string := NilZero.string_of_int (Z.to_int n).

(** [s * n] for a [str]: the empty string when [n <= 0]. *)
Definition str_mul (s : string) (n : Z) : string :=
  String.concat "" (repeat s (Z.to_nat n)).

(** [sep.join(parts)]. *)
Definition join (sep : string) (parts : list string) : string :=
  String.concat sep parts.

(** ** Time: the part of pendulum the program uses

    [TIMEZONE = "Asia/Shanghai"] is at UTC+08:00 with no daylight saving
    (since 1991), so local time is the instant shifted by eight hours. *)

Module Pendulum.

Record DateTime := mkDateTime {
  year : Z; month : Z; day : Z;
  hour : Z; minute : Z; second : Z;
  day_of_year : Z
}.

Definition usec_per_sec : Z := 1000000.
Definition usec_per_day : Z := 86400 * usec_per_sec.
Definition utc_offset : Z := 8 * 3600 * usec_per_sec.

(** Days since 1970-01-01 of a proleptic Gregorian date. *)
Definition days_from_civil (y m d : Z) : Z :=
  let y' := if m <=? 2 then y - 1 else y in
  let era := y' / 400 in
  let yoe := y' - era * 400 in
  let mp := if 2 <? m then m - 3 else m + 9 in
  let doy := (153 * mp + 2) / 5 + d - 1 in
  let doe := yoe * 365 + yoe / 4 - yoe / 100 + doy in
  era * 146097 + doe - 719468.

(** The proleptic Gregorian (year, month, day) of a day number. *)
Definition civil_from_days (days : Z) : Z * Z * Z :=
  let z := days + 719468 in
  let era := z / 146097 in
  let doe := z - era * 146097 in
  let yoe := (doe - doe / 1460 + doe / 36524 - doe / 146096) / 365 in
  let doy := doe - (365 * yoe + yoe / 4 - yoe / 100) in
  let mp := (5 * doy + 2) / 153 in
  let d := doy - (153 * mp + 2) / 5 + 1 in
  let m := if mp <? 10 then mp + 3 else mp - 9 in
  let y := yoe + era * 400 in
  (if m <=? 2 then y + 1 else y, m, d).

(** [pendulum.now(TIMEZONE)] / [.in_timezone("Asia/Shanghai")]: the
    calendar fields of the instant [t] on the Shanghai wall clock. *)
Definition in_timezone (t : Z) : DateTime :=
  let local := t + utc_offset in
  let days := local / usec_per_day in
  let secs := (local mod usec_per_day) / usec_per_sec in
  let '(y, m, d) := civil_from_days days in
  {| year := y; month := m; day := d;
     hour := secs / 3600; minute := (secs mod 3600) / 60; second := secs mod 60;
     day_of_year := days - days_from_civil y 1 1 + 1 |}.

(** [.start_of("day")] and [.end_of("day")] of the Shanghai day of [t],
    as instants ([.in_timezone("UTC")] does not change the instant). *)
Definition start_of_day (t : Z) : Z :=
  ((t + utc_offset) / usec_per_day) * usec_per_day - utc_offset.
Definition end_of_day (t : Z) : Z := start_of_day t + usec_per_day - 1.

(** [.subtract(days=1)]. *)
Definition subtract_day (t : Z) : Z := t - usec_per_day.

(** [.format("MM")], [.format("DD")]: two digits, zero padded. *)
Definition two_digits (n : Z) : string :=
  if n <? 10 then "0" ++ str_of_int n else str_of_int n.

End Pendulum.

Import Pendulum.

(** ** Year progress ([get_day_of_year], [get_year_progress]) *)

Definition get_day_of_year (now : Z) : Z := day_of_year (in_timezone now).

(** [float(n)]; exact for every [n] with [|n| < 2^53], which covers the day
    counts and the bar width. *)
Definition float_of_int (n : Z) : float :=
  if n <? 0 then PrimFloat.opp (PrimFloat.of_uint63 (Uint63.of_Z (- n)))
  else PrimFloat.of_uint63 (Uint63.of_Z n).

(** [int(x)] for a float: truncation toward zero; raises on infinities and
    NaN. *)
Definition int_of_float (x : float) : py Z :=
  match Prim2SF x with
  | S754_zero _ => ret 0
  | S754_finite s m e =>
      let v := if 0 <=? e then Z.pos m * 2 ^ e else Z.pos m / 2 ^ (- e) in
      ret (if s then - v else v)
  | S754_infinity _ => raise OverflowError
  | S754_nan => raise ValueError
  end.

(** [a / b] on two ints of the exact range: the correctly rounded quotient. *)
Definition true_div (a b : Z) : float :=
  PrimFloat.div (float_of_int a) (float_of_int b).

Definition is_leap_year (y : Z) : bool :=
  (y mod 4 =? 0) && (negb (y mod 100 =? 0) || (y mod 400 =? 0)).

Definition total_days (y : Z) : Z := if is_leap_year y then 366 else 365.

Definition progress_bar_width : Z := 20.

Definition filled_blocks (day_of_year total_days : Z) : py Z :=
  int_of_float (PrimFloat.mul (true_div day_of_year total_days)
                              (float_of_int progress_bar_width)).

(** The local [progress_bar] of [get_year_progress]. *)
Definition progress_bar (y day_of_year : Z) : py string :=
  filled <- filled_blocks day_of_year (total_days y) ;;
  let empty_blocks := progress_bar_width - filled in
  ret (str_mul "█" filled ++ str_mul "░" empty_blocks).

Section YearProgress.
(** [f"{x:.1f}"], the one-decimal rendering of a float. *)
Variable format_1f : float -> string.

Definition get_year_progress (now : Z) : py string :=
  let dt := in_timezone now in
  let total := total_days (year dt) in
  let progress_percent :=
    PrimFloat.mul (true_div (day_of_year dt) total) (float_of_int 100) in
  bar <- progress_bar (year dt) (day_of_year dt) ;;
  ret (bar ++ " " ++ format_1f progress_percent ++ "% ("
           ++ str_of_int (day_of_year dt) ++ "/" ++ str_of_int total ++ ")").
End YearProgress.

(** ** The idempotency gate ([get_today_get_up_status]) *)

Record IssueComment := mkComment {
  created_at : Z;
  comment_body : string
}.

(** The two shapes the gate returns: a [bool], or the pair [(False, [])]. *)
Inductive pyobj :=
| PyBool (b : bool)
| PyList (xs : list pyobj)
| PyTuple (xs : list pyobj).

(** Python truth value, as [if x:] tests it. *)
Definition truthy (v : pyobj) : bool :=
  match v with
  | PyBool b => b
  | PyList xs | PyTuple xs => negb (Nat.eqb (List.length xs) 0)
  end.

(** [comments] is [list(issue.get_comments())], oldest first; [now] the
    instant read by [pendulum.now(TIMEZONE)]. *)
Definition get_today_get_up_status (comments : list IssueComment) (now : Z) : pyobj :=
  match comments with
  | [] => PyTuple [PyBool false; PyList []]
  | c :: rest =>
      let latest_comment := last rest c in
      let now_dt := in_timezone now in
      let latest_day := in_timezone (created_at latest_comment) in
      let is_today :=
        (day latest_day =? day now_dt) && (month latest_day =? month now_dt) in
      PyBool is_today
  end.

(** ** JSON values, as [response.json()] decodes them *)

Inductive json :=
| JNull
| JBool (b : bool)
| JNum (n : Z)
| JStr (s : string)
| JArr (xs : list json)
| JObj (kvs : list (string * json)).

(** Python truth value of a decoded value. *)
Definition json_truthy (v : json) : bool :=
  match v with
  | JNull => false
  | JBool b => b
  | JNum n => negb (n =? 0)
  | JStr s => negb (String.eqb s "")
  | JArr xs => negb (Nat.eqb (List.length xs) 0)
  | JObj kvs => negb (Nat.eqb (List.length kvs) 0)
  end.

Fixpoint assoc (k : string) (kvs : list (string * json)) : option json :=
  match kvs with
  | [] => None
  | (k', v) :: rest => if String.eqb k k' then Some v else assoc k rest
  end.

(** [d.get(k, default)]: only a dict has [.get]. *)
Definition dict_get (d : json) (k : string) (default : json) : py json :=
  match d with
  | JObj kvs => ret (match assoc k kvs with Some v => v | None => default end)
  | _ => raise AttributeError
  end.

(** [for x in v]: the elements of a list, the characters of a str, the keys
    of a dict; nothing else is iterable. *)
Definition iter_json (v : json) : py (list json) :=
  match v with
  | JArr xs => ret xs
  | JStr s => ret (map (fun c => JStr (String c "")) (list_ascii_of_string s))
  | JObj kvs => ret (map (fun kv => JStr (fst kv)) kvs)
  | _ => raise TypeError
  end.

(** The loop [for x in xs: acc.extend(f x)], stopping at the first raise. *)
Fixpoint for_each {A B} (f : A -> py (list B)) (xs : list A) : py (list B) :=
  match xs with
  | [] => ret []
  | x :: rest => ys <- f x ;; zs <- for_each f rest ;; ret (ys ++ zs)%list
  end.

(** ** String operations *)

Definition nl : string := String (ascii_of_nat 10) "".

(** [Some rest] when [s = p ++ rest]. *)
Fixpoint strip_prefix (p s : string) : option string :=
  match p, s with
  | EmptyString, _ => Some s
  | String a p', String b s' => if Ascii.eqb a b then strip_prefix p' s' else None
  | String _ _, EmptyString => None
  end.

(** [p in s] for two strs. *)
Fixpoint contains (p s : string) : bool :=
  match strip_prefix p s with
  | Some _ => true
  | None => match s with
            | EmptyString => false
            | String _ s' => contains p s'
            end
  end.

(** *** Characters

    A str is held as its UTF-8 bytes; its characters are the groups of a
    leading byte and the continuation bytes that follow it. *)

(** A byte that continues a UTF-8 character. *)
Definition is_continuation (c : ascii) : bool :=
  let n := nat_of_ascii c in (Nat.leb 128 n && Nat.ltb n 192)%bool.

(** The characters of a str, each with all its bytes. *)
Fixpoint code_points (s : string) : list string :=
  match s with
  | EmptyString => []
  | String c s' =>
      match code_points s' with
      | [] => [String c ""]
      | p :: ps =>
          match s' with
          | String c' _ =>
              if is_continuation c' then String c p :: ps
              else String c "" :: p :: ps
          | EmptyString => [String c ""]
          end
      end
  end.

(** [ord(ch)] of a character, from its bytes: the payload of the leading
    byte, then six bits of each continuation byte. *)
Definition code_point_number (ch : string) : Z :=
  match ch with
  | EmptyString => 0
  | String c rest =>
      let n := Z.of_nat (nat_of_ascii c) in
      let lead :=
        if n <? 128 then n
        else if n <? 224 then n - 192
        else if n <? 240 then n - 224
        else n - 240 in
      fold_left (fun acc b => acc * 64 + Z.of_nat (nat_of_ascii b) mod 64)
                (list_ascii_of_string rest) lead
  end.

(** The characters of a str, as numbers. *)
Definition unicode (s : string) : list Z := map code_point_number (code_points s).

(** The digit zero of each decimal system (category Nd) of the Unicode
    database of CPython 3.11, version 14.0: ASCII, Arabic-Indic, ...,
    fullwidth (65296), ...; the digits of a system follow its zero, in
    order. *)
Definition decimal_zeros : list Z :=
  [48; 1632; 1776; 1984; 2406; 2534; 2662; 2790;
   2918; 3046; 3174; 3302; 3430; 3558; 3664; 3792;
   3872; 4160; 4240; 6112; 6160; 6470; 6608; 6784;
   6800; 6992; 7088; 7232; 7248; 42528; 43216; 43264;
   43472; 43504; 43600; 44016; 65296; 66720; 68912; 69734;
   69872; 69942; 70096; 70384; 70736; 70864; 71248; 71360;
   71472; 71904; 72016; 72784; 73040; 73120; 92768; 92864;
   93008; 120782; 120792; 120802; 120812; 120822; 123200; 123632;
   125264; 130032].

(** The value of a decimal digit, [None] for any other character: what
    [\d] matches, and what [int] reads. *)
Definition decimal_value (c : Z) : option Z :=
  match find (fun zero => (zero <=? c) && (c <? zero + 10)) decimal_zeros with
  | Some zero => Some (c - zero)
  | None => None
  end.

(** The longest prefix of decimal digits, as their values, and what follows
    it. *)
Fixpoint span_digits (cs : list Z) : list Z * list Z :=
  match cs with
  | c :: cs' =>
      match decimal_value c with
      | Some d => let '(ds, rest) := span_digits cs' in (d :: ds, rest)
      | None => ([], cs)
      end
  | [] => ([], [])
  end.

(** [sys.get_int_max_str_digits()]. *)
Definition int_max_str_digits : nat := 4300.

(** [int(ds)] for a run of decimal digits: [ValueError] past the limit on
    the number of digits. *)
Definition int_of_digits (ds : list Z) : py Z :=
  if Nat.ltb int_max_str_digits (List.length ds) then raise ValueError
  else ret (fold_left (fun acc d => 10 * acc + d) ds 0).

(** [re.search(r"(\d+)", s)]: group 1 of the leftmost match, as digit
    values. *)
Fixpoint search_digits (cs : list Z) : option (list Z) :=
  match cs with
  | [] => None
  | c :: cs' =>
      match decimal_value c with
      | Some _ => Some (fst (span_digits cs))
      | None => search_digits cs'
      end
  end.

Definition BCE : string := "公元前".

(** [Some rest] when [cs = p ++ rest]. *)
Fixpoint strip_points (p cs : list Z) : option (list Z) :=
  match p, cs with
  | [], _ => Some cs
  | a :: p', b :: cs' => if a =? b then strip_points p' cs' else None
  | _ :: _, [] => None
  end.

(** [re.search(r"公元前(\d+)", s)]: group 1 of the leftmost match, as digit
    values. *)
Fixpoint search_bce (cs : list Z) : option (list Z) :=
  let here :=
    match strip_points (unicode BCE) cs with
    | Some rest => match fst (span_digits rest) with
                   | [] => None
                   | ds => Some ds
                   end
    | None => None
    end in
  match here with
  | Some ds => Some ds
  | None => match cs with
            | [] => None
            | _ :: cs' => search_bce cs'
            end
  end.

(** The longest prefix free of [c], and what follows it. *)
Fixpoint span_not (c : ascii) (s : string) : string * string :=
  match s with
  | String a s' =>
      if Ascii.eqb a c then (EmptyString, s)
      else let '(run, rest) := span_not c s' in (String a run, rest)
  | EmptyString => (EmptyString, EmptyString)
  end.

(** After a ["<"]: the length of [[^>]+>] when it matches here.  The class
    is greedy and must be followed by [">"], so only the longest run can
    match. *)
Definition tag_length (s : string) : option nat :=
  match span_not ">" s with
  | (String _ _ as run, String _ _) => Some (S (String.length run))
  | _ => None
  end.

(** [re.sub(r'<[^>]+>', '', text)]; [skip] counts the characters of the
    current match still to drop. *)
Fixpoint strip_tags_from (skip : nat) (s : string) : string :=
  match s with
  | EmptyString => EmptyString
  | String c s' =>
      match skip with
      | S k => strip_tags_from k s'
      | O =>
          if Ascii.eqb c "<" then
            match tag_length s' with
            | Some n => strip_tags_from n s'
            | None => String c (strip_tags_from 0 s')
            end
          else String c (strip_tags_from 0 s')
      end
  end.

Definition strip_tags (text : string) : string := strip_tags_from 0 text.

(** [text.replace("\n", " ")]. *)
Fixpoint replace_newlines (s : string) : string :=
  match s with
  | EmptyString => EmptyString
  | String c s' =>
      String (if Ascii.eqb c (ascii_of_nat 10) then " "%char else c) (replace_newlines s')
  end.

(** ** Historical events: the two normalizers *)

(** The outcome of [requests.get(url, ...)]: it raises, or it gives a
    response with its [ok] flag and its body ([None] when the body is not
    JSON, in which case [response.json()] raises). *)
Inductive http_response :=
| ConnectionFailed
| Response (ok : bool) (body : option json).

Definition response_json (body : option json) : py json :=
  match body with
  | Some data => ret data
  | None => raise ValueError
  end.

(** The dict [{"year": .., "text": .., "wiki_url": ..}] the normalizers
    build; the Baidu normalizer sets no ["wiki_url"] key. *)
Record HistoricalEvent := mkEvent {
  ev_year : json;
  ev_text : json;
  ev_wiki_url : option json
}.

(** The value of [year_match] after lines 256-266, or the exception of
    [int]. *)
Definition parse_year (year_str : string) : py (option Z) :=
  if contains BCE year_str
  then match search_bce (unicode year_str) with
       | Some ds => n <- int_of_digits ds ;; ret (Some (- n))
       | None => ret None
       end
  else match search_digits (unicode year_str) with
       | Some ds => n <- int_of_digits ds ;; ret (Some n)
       | None => ret None
       end.

(** The body of the Baidu loop for one raw event: the events it appends.
    [year_str] must be a str, otherwise [in] or [re.search] raises. *)
Definition baidu_event (event : json) : py (list HistoricalEvent) :=
  year_v <- dict_get event "year" (JStr "") ;;
  match year_v with
  | JStr year_str =>
      year_match <- parse_year year_str ;;
      match year_match with
      | Some y =>
          title <- dict_get event "title" (JStr "") ;;
          text <- (if json_truthy title then ret title
                   else dict_get event "desc" (JStr "")) ;;
          match text with
          | JStr t =>
              ret [ {| ev_year := JNum y; ev_text := JStr (strip_tags t);
                       ev_wiki_url := None |} ]
          | _ => raise TypeError
          end
      | None => ret []
      end
  | _ => raise TypeError
  end.

Definition get_history_today_from_baidu (resp : http_response) (now : Z)
  : py (list HistoricalEvent) :=
  catch
    (let dt := in_timezone now in
     let month := two_digits (month dt) in
     let day := two_digits (day dt) in
     match resp with
     | ConnectionFailed => raise RequestException
     | Response ok body =>
         if negb ok then ret []
         else
           data <- response_json body ;;
           month_data <- dict_get data month (JObj []) ;;
           let day_key := month ++ day in
           events_raw <- dict_get month_data day_key (JArr []) ;;
           raw <- iter_json events_raw ;;
           for_each baidu_event raw
     end)
    (fun _ => ret []).

(** [pages[0]], reached only when [pages] is truthy.  A str gives a str, on
    which the following [.get] raises. *)
Definition first_page (pages : json) : py json :=
  match pages with
  | JArr (p :: _) => ret p
  | JArr [] => raise IndexError
  | JStr _ => raise AttributeError
  | JObj _ => raise KeyError
  | _ => raise TypeError
  end.

(** The body of the Wikimedia loop for one raw event. *)
Definition wikimedia_event (event : json) : py (list HistoricalEvent) :=
  year <- dict_get event "year" JNull ;;
  text <- dict_get event "text" (JStr "") ;;
  pages <- dict_get event "pages" (JArr []) ;;
  wiki_url <- (if json_truthy pages then
                 p <- first_page pages ;;
                 content_urls <- dict_get p "content_urls" (JObj []) ;;
                 desktop <- dict_get content_urls "desktop" (JObj []) ;;
                 dict_get desktop "page" (JStr "")
               else ret (JStr "")) ;;
  if json_truthy year
  then ret [ {| ev_year := year; ev_text := text; ev_wiki_url := Some wiki_url |} ]
  else ret [].

Definition get_history_today_from_wikimedia (resp : http_response) (now : Z)
  : py (list HistoricalEvent) :=
  catch
    (match resp with
     | ConnectionFailed => raise RequestException
     | Response ok body =>
         if negb ok then ret []
         else
           data <- response_json body ;;
           events_raw <- dict_get data "events" (JArr []) ;;
           raw <- iter_json events_raw ;;
           for_each wikimedia_event raw
     end)
    (fun _ => ret []).

(** ** Historical events: the selector ([get_history_today]) *)

Definition BIRTH_YEAR : Z := 1999.

Definition FALLBACK_INTERESTING_FACTS : list string := [
  "🎲 今天是个特别的日子，因为你又活过了新的一天！";
  "💡 有趣的事实：每天地球上大约会发生 50,000 次地震，但大多数我们感觉不到。";
  "🌍 你知道吗？地球每天会被大约 100 吨的宇宙尘埃撞击。";
  "⏰ 时间小知识：一天并不是精确的 24 小时，而是 23 小时 56 分 4 秒。";
  "🧠 大脑趣闻：你的大脑每天产生大约 50,000 个想法。";
  "📚 阅读启示：平均每人每天会说大约 16,000 个字。";
  "☕ 咖啡因事实：全世界每天要喝掉超过 20 亿杯咖啡。";
  "🌟 宇宙奥秘：光从太阳到达地球需要约 8 分 20 秒。";
  "💭 哲学思考：'今天'这个词在不同时区有 24 种不同的含义。";
  "🎯 激励语录：每一个伟大的成就，都始于决定去尝试。"
].

(** The generator, as the values it hands out during one call: the raw
    draws [random.sample] consumes, and the one [random.choice] consumes
    (a call makes at most one [sample] and at most one [choice]). *)
Record rng := mkRng {
  sample_draw : nat -> nat;
  choice_draw : nat
}.

(** [random.choice(seq)]. *)
Definition random_choice {A} (g : rng) (seq : list A) : py A :=
  match nth_error seq (Nat.modulo (choice_draw g) (List.length seq)) with
  | Some x => ret x
  | None => raise IndexError
  end.

(** Removes the element at index [j]. *)
Fixpoint remove_nth {A} (j : nat) (l : list A) : list A :=
  match l, j with
  | [], _ => []
  | _ :: t, O => t
  | x :: t, S j' => x :: remove_nth j' t
  end.

(** [k] successive draws from the pool, each drawn element leaving it. *)
Fixpoint draw {A} (f : nat -> nat) (i : nat) (pool : list A) (k : nat) : list A :=
  match k with
  | O => []
  | S k' =>
      let j := Nat.modulo (f i) (List.length pool) in
      match nth_error pool j with
      | Some x => x :: draw f (S i) (remove_nth j pool) k'
      | None => []
      end
  end.

(** [random.sample(population, k)]: [k] elements at distinct positions, in
    the order drawn; raises when [k] is negative or exceeds the population. *)
Definition random_sample {A} (g : rng) (population : list A) (k : Z) : py (list A) :=
  if (k <? 0) || (Z.of_nat (List.length population) <? k)
  then raise ValueError
  else ret (draw (sample_draw g) 0 population (Z.to_nat k)).

(** The int a value compares as ([bool] is an [int]); comparing anything
    else with an int raises. *)
Definition as_int (v : json) : py Z :=
  match v with
  | JNum n => ret n
  | JBool b => ret (if b then 1 else 0)
  | _ => raise TypeError
  end.

(** The list comprehension [[x for x in xs if p x]], with a test that can
    raise. *)
Fixpoint filter_py {A} (p : A -> py bool) (xs : list A) : py (list A) :=
  match xs with
  | [] => ret []
  | x :: rest =>
      b <- p x ;;
      ys <- filter_py p rest ;;
      ret (if b then x :: ys else ys)
  end.

(** [[f x for x in xs]]. *)
Fixpoint map_py {A B} (f : A -> py B) (xs : list A) : py (list B) :=
  match xs with
  | [] => ret []
  | x :: rest => y <- f x ;; ys <- map_py f rest ;; ret (y :: ys)
  end.

(** Stable insertion for a descending order: [x] goes before the first
    element whose key is not greater than its own. *)
Fixpoint insert_desc {A} (x : Z * A) (l : list (Z * A)) : list (Z * A) :=
  match l with
  | [] => [x]
  | y :: rest => if fst x <? fst y then y :: insert_desc x rest else x :: l
  end.

Fixpoint sort_desc {A} (l : list (Z * A)) : list (Z * A) :=
  match l with
  | [] => []
  | x :: rest => insert_desc x (sort_desc rest)
  end.

(** [events.sort(key=lambda x: x.get("year", 0), reverse=True)]: stable,
    by descending year. *)
Definition sort_by_year_desc (events : list HistoricalEvent) : py (list HistoricalEvent) :=
  keyed <- map_py (fun e => k <- as_int (ev_year e) ;; ret (k, e)) events ;;
  ret (map snd (sort_desc keyed)).

(** [birth_year <= event["year"] <= current_year]. *)
Definition in_lifetime (birth_year current_year : Z) (e : HistoricalEvent) : py bool :=
  y <- as_int (ev_year e) ;;
  ret ((birth_year <=? y) && (y <=? current_year)).

(** [e["year"] > 0]. *)
Definition positive_year (e : HistoricalEvent) : py bool :=
  y <- as_int (ev_year e) ;;
  ret (0 <? y).

Definition is_empty {A} (l : list A) : bool :=
  match l with [] => true | _ => false end.

(** Lines 359-368: the lifetime filter and its relaxation. *)
Definition filter_events (birth_year current_year : Z) (events : list HistoricalEvent)
  : py (list HistoricalEvent) :=
  filtered_events <- filter_py (in_lifetime birth_year current_year) events ;;
  if is_empty filtered_events
  then filter_py positive_year events
  else ret filtered_events.

(** Lines 373-378: the sample and its ordering. *)
Definition select_events (g : rng) (limit : Z) (filtered_events : list HistoricalEvent)
  : py (list HistoricalEvent) :=
  selected_events <-
    random_sample g filtered_events
                  (Z.min limit (Z.of_nat (List.length filtered_events))) ;;
  sort_by_year_desc selected_events.

Section Selector.
(** [repr] of a list or dict, [str.strip] and the OpenCC conversion
    [cc.convert]. *)
Variable repr_container : json -> string.
Variable str_strip : string -> string.
Variable convert : string -> string.

(** [f"{v}"]. *)
Definition py_format (v : json) : string :=
  match v with
  | JNull => "None"
  | JBool true => "True"
  | JBool false => "False"
  | JNum n => str_of_int n
  | JStr s => s
  | _ => repr_container v
  end.

(** The body of the rendering loop for one selected event. *)
Definition render_event (birth_year : Z) (event : HistoricalEvent) : py string :=
  let year := ev_year event in
  let text := ev_text event in
  let wiki_url := match ev_wiki_url event with Some u => u | None => JStr "" end in
  age_text <-
    (if json_truthy year then
       y <- as_int year ;;
       if birth_year <=? y
       then ret ("（那年我 " ++ str_of_int (y - birth_year) ++ " 岁）")
       else ret ("（我出生前 " ++ str_of_int (birth_year - y) ++ " 年）")
     else ret "") ;;
  match text with
  | JStr t =>
      let text := convert (str_strip (replace_newlines t)) in
      if json_truthy wiki_url
      then ret ("• **" ++ py_format year ++ "年**：[" ++ text ++ "]("
                  ++ py_format wiki_url ++ ") " ++ age_text ++ "  ")
      else ret ("• **" ++ py_format year ++ "年**：" ++ text ++ " "
                  ++ age_text ++ "  ")
  | _ => raise AttributeError
  end.

Definition history_header : string := "历史上的今天：" ++ nl ++ nl.

(** Lines 350-354: the primary provider, then the secondary one. *)
Definition fetch_events (wikimedia baidu : http_response) (now : Z)
  : py (list HistoricalEvent) :=
  events <- get_history_today_from_wikimedia wikimedia now ;;
  if is_empty events then get_history_today_from_baidu baidu now
  else ret events.

(** Lines 356-408, from the fetched events to the rendered block. *)
Definition select_and_render (g : rng) (birth_year limit current_year : Z)
           (events : list HistoricalEvent) : py string :=
  if is_empty events then random_choice g FALLBACK_INTERESTING_FACTS
  else
    filtered_events <- filter_events birth_year current_year events ;;
    if is_empty filtered_events then random_choice g FALLBACK_INTERESTING_FACTS
    else
      selected_events <- select_events g limit filtered_events ;;
      result_lines <- map_py (render_event birth_year) selected_events ;;
      ret (history_header ++ join nl result_lines).

(** The [try] block of [get_history_today]. *)
Definition get_history_today_body (g : rng) (wikimedia baidu : http_response)
           (now : Z) (birth_year limit : Z) : py string :=
  let current_year := year (in_timezone now) in
  events <- fetch_events wikimedia baidu now ;;
  select_and_render g birth_year limit current_year events.

Definition get_history_today (g : rng) (wikimedia baidu : http_response)
           (now : Z) (birth_year limit : Z) : py string :=
  catch (get_history_today_body g wikimedia baidu now birth_year limit)
        (fun _ => random_choice g FALLBACK_INTERESTING_FACTS).
End Selector.

(** ** GitHub activity ([get_yesterday_github_activity]) *)

(** What [_make_api_request] hands back: the decoded list of a 200
    response, or an error message (any other status, or a raised request). *)
Inductive api_result (A : Type) :=
| ApiOk (data : list A)
| ApiError (error : string).
Arguments ApiOk {A} data.
Arguments ApiError {A} error.

(** One item of a search response. *)
Record SearchItem := mkItem {
  item_login : string;
  item_repository_url : string;
  item_title : string;
  item_html_url : string
}.

(** [s.split(c)]: never empty. *)
Fixpoint split_on (c : ascii) (s : string) : list string :=
  match s with
  | EmptyString => [EmptyString]
  | String a s' =>
      let parts := split_on c s' in
      if Ascii.eqb a c then EmptyString :: parts
      else match parts with
           | p :: ps => String a p :: ps
           | [] => [String a EmptyString]
           end
  end.

(** [l[-n:]]. *)
Definition last_n {A} (n : nat) (l : list A) : list A :=
  skipn (List.length l - n) l.

Definition _get_repo_name_from_url (url : string) : string :=
  join "/" (last_n 2 (split_on "/" url)).

Definition _process_search_items (items : list SearchItem) (username item_type : string)
  : list string :=
  let action_text :=
    if String.eqb item_type "pr" then "创建了 PR" else "创建了 Issue" in
  map (fun item =>
         let repo_name := _get_repo_name_from_url (item_repository_url item) in
         action_text ++ ": [" ++ item_title item ++ "](" ++ item_html_url item
                     ++ ") (" ++ repo_name ++ ")")
      (filter (fun item => String.eqb (item_login item) username) items).

(** The [pull_request] or [issue] object of a payload. *)
Record Linked := mkLinked {
  linked_title : string;
  linked_html_url : string
}.

Record Payload := mkPayload {
  action : option string;
  pull_request : option Linked;
  issue : option Linked
}.

(** One event of the user's stream; [created] is the instant
    [pendulum.parse(event["created_at"])], [public] the optional flag. *)
Record Event := mkGhEvent {
  created : Z;
  public : option bool;
  event_type : string;
  repo_name : string;
  payload : Payload
}.

Definition action_is (p : Payload) (a : string) : bool :=
  match action p with
  | Some a' => String.eqb a' a
  | None => false
  end.

(** [payload[key]] for an object that may be missing. *)
Definition subscript {A} (field : option A) : py A :=
  match field with
  | Some x => ret x
  | None => raise KeyError
  end.

(** The activities one in-window public event appends. *)
Definition event_activity (event : Event) : py (list string) :=
  let repo_name := repo_name event in
  if String.eqb (event_type event) "PullRequestEvent" then
    if action_is (payload event) "merged" then
      pr_data <- subscript (pull_request (payload event)) ;;
      ret [ "合并了 PR: [" ++ linked_title pr_data ++ "](" ++ linked_html_url pr_data
              ++ ") (" ++ repo_name ++ ")" ]
    else ret []
  else if String.eqb (event_type event) "IssuesEvent" then
    if action_is (payload event) "closed" then
      issue_data <- subscript (issue (payload event)) ;;
      ret [ "关闭了 Issue: [" ++ linked_title issue_data ++ "]("
              ++ linked_html_url issue_data ++ ") (" ++ repo_name ++ ")" ]
    else ret []
  else if String.eqb (event_type event) "WatchEvent" then
    if action_is (payload event) "started" then
      let repo_url := "https://github.com/" ++ repo_name in
      ret [ "Star 了项目: [" ++ repo_name ++ "](" ++ repo_url ++ ")" ]
    else ret []
  else ret [].

(** The [for] loop of [_process_events]. *)
Fixpoint scan_events (events : list Event) (yesterday_start yesterday_end : Z)
  : py (list string) :=
  match events with
  | [] => ret []
  | event :: rest =>
      let event_created := created event in
      if event_created <? yesterday_start then ret []
      else if negb ((yesterday_start <=? event_created)
                      && (event_created <=? yesterday_end))
      then scan_events rest yesterday_start yesterday_end
      else if negb (match public event with Some b => b | None => true end)
      then scan_events rest yesterday_start yesterday_end
      else
        acts <- event_activity event ;;
        more <- scan_events rest yesterday_start yesterday_end ;;
        ret (acts ++ more)%list
  end.

Definition _process_events (events : list Event) (yesterday_start yesterday_end : Z)
  : py (list string) :=
  scan_events (firstn 100 events) yesterday_start yesterday_end.

Definition page_size : Z := 30.

(** The paging loop over [pages]; [fetch page] is what the request for that
    page returns.  The result pairs the pages requested, in order, with the
    activities gathered (or the exception that ended the loop). *)
Fixpoint pages_loop (fetch : Z -> api_result Event) (pages : list Z)
         (yesterday_start yesterday_end : Z) : list Z * py (list string) :=
  match pages with
  | [] => ([], ret [])
  | page :: more =>
      match fetch page with
      | ApiError _ =>
          let '(log, r) := pages_loop fetch more yesterday_start yesterday_end in
          (page :: log, r)
      | ApiOk events_data =>
          if is_empty events_data then ([page], ret [])
          else
            match _process_events events_data yesterday_start yesterday_end with
            | inl e => ([page], inl e)
            | inr page_activities =>
                if Z.of_nat (List.length events_data) <? page_size
                then ([page], ret page_activities)
                else
                  let '(log, r) :=
                    pages_loop fetch more yesterday_start yesterday_end in
                  (page :: log,
                   all_activities <- r ;;
                   ret (page_activities ++ all_activities)%list)
            end
      end
  end.

(** [range(1, 4)]. *)
Definition event_pages : list Z := [1; 2; 3].

(** [list(dict.fromkeys(keys))]: a dict keeps its keys in insertion order,
    and setting a key that is present does not move it. *)
Definition dict_add (d : list string) (k : string) : list string :=
  if existsb (String.eqb k) d then d else (d ++ [k])%list.

Definition dict_fromkeys (keys : list string) : list string :=
  fold_left dict_add keys [].

Definition activity_cap : nat := 15.

(** The window of yesterday, as the function computes it from now. *)
Definition yesterday_window (now : Z) : Z * Z :=
  let yesterday := subtract_day now in
  (start_of_day yesterday, end_of_day yesterday).

(** What one search contributes: the rendered items of a 200 response,
    nothing on an error. *)
Definition search_activities (data : api_result SearchItem) (username item_type : string)
  : list string :=
  match data with
  | ApiOk items => _process_search_items items username item_type
  | ApiError _ => []
  end.

(** The list [activities] at line 577. *)
Definition collect_activities (pr_data issue_data : api_result SearchItem)
           (fetch : Z -> api_result Event) (now : Z) (username : string)
  : py (list string) :=
  let '(yesterday_start, yesterday_end) := yesterday_window now in
  let pr_activities := search_activities pr_data username "pr" in
  let issue_activities := search_activities issue_data username "issue" in
  all_activities <- snd (pages_loop fetch event_pages yesterday_start yesterday_end) ;;
  ret (pr_activities ++ issue_activities ++ all_activities)%list.

(** The entries of the block: [unique_activities[:15]]. *)
Definition merge_activities (activities : list string) : list string :=
  firstn activity_cap (dict_fromkeys activities).

Definition render_activities (activities : list string) : string :=
  if is_empty activities then ""
  else "GitHub：" ++ nl ++ nl
         ++ join nl (map (fun activity => "• " ++ activity) (merge_activities activities)).

Definition get_yesterday_github_activity (pr_data issue_data : api_result SearchItem)
           (fetch : Z -> api_result Event) (now : Z) (username : string) : py string :=
  catch
    (activities <- collect_activities pr_data issue_data fetch now username ;;
     ret (render_activities activities))
    (fun _ => ret "").

(** The pages of the event stream a call requests, in order. *)
Definition requested_pages (fetch : Z -> api_result Event) (now : Z) : list Z :=
  let '(yesterday_start, yesterday_end) := yesterday_window now in
  fst (pages_loop fetch event_pages yesterday_start yesterday_end).

(** ** The digest and its dispatch ([make_get_up_message], [main]) *)

(** [now.to_datetime_string()]. *)
Definition to_datetime_string (dt : DateTime) : string :=
  str_of_int (year dt) ++ "-" ++ two_digits (month dt) ++ "-" ++ two_digits (day dt)
    ++ " " ++ two_digits (hour dt) ++ ":" ++ two_digits (minute dt)
    ++ ":" ++ two_digits (second dt).

Definition github_prefix : string := "(https://github.com/".

(** After a ["["]: when the link pattern of [remove_github_links] matches
    here, its group 1 and the length of the rest of the match.  Each class
    is greedy and must be followed by its closing character, so only the
    longest runs can match. *)
Definition github_link (s : string) : option (string * nat) :=
  match span_not "]" s with
  | (String _ _ as label, String _ after) =>
      match strip_prefix github_prefix after with
      | Some target =>
          match span_not ")" target with
          | (String _ _ as path, String _ _) =>
              Some (label, (String.length label + 1 + String.length github_prefix
                             + String.length path + 1)%nat)
          | _ => None
          end
      | None => None
      end
  | _ => None
  end.

(** [re.sub(pattern, r"\\1", text)]; [skip] counts the characters of the
    current match still to drop. *)
Fixpoint remove_links_from (skip : nat) (s : string) : string :=
  match s with
  | EmptyString => EmptyString
  | String c s' =>
      match skip with
      | S k => remove_links_from k s'
      | O =>
          if Ascii.eqb c "[" then
            match github_link s' with
            | Some (label, n) => label ++ remove_links_from n s'
            | None => String c (remove_links_from 0 s')
            end
          else String c (remove_links_from 0 s')
      end
  end.

Definition remove_github_links (text : string) : string := remove_links_from 0 text.

(** What the sources of one run answer. *)
Record Feeds := mkFeeds {
  feed_sentence : string;
  feed_pr_search : api_result SearchItem;
  feed_issue_search : api_result SearchItem;
  feed_events : Z -> api_result Event;
  feed_running_info : string;
  feed_wikimedia : http_response;
  feed_baidu : http_response;
  feed_rng : rng;
  feed_street_view : string
}.

(** The tuple [make_get_up_message] returns. *)
Record Message := mkMessage {
  sentence : string;
  is_get_up_early : bool;
  msg_day_of_year : Z;
  year_progress : string;
  github_activity : string;
  running_info : string;
  history_today : string;
  street_view : string
}.

(** The command-line options of [main]. *)
Record Options := mkOptions {
  tele_token : string;
  tele_chat_id : string;
  dingtalk_webhook : string;
  dingtalk_secret : string
}.

(** The calls of [main] that can fail, in the order of the source, and
    whether they do in this run: [login] and [u.get_repo] (lines 760-761,
    outside every [try]); the search for the issue and its creation; the
    reading of the comments in the gate; [telebot.TeleBot(tele_token)] (line
    814, outside the [try] that follows it: the library raises [ValueError]
    on a token it rejects, such as one without a colon); [markdownify] and
    [bot.send_message] (inside that [try]); the post of
    [send_dingtalk_message], whose failure is printed and swallowed (lines
    107-114, 828-831); and [issue.create_comment].  The exception of a
    failed GitHub call is recorded as [RequestException], whichever class
    the client raised. *)
Record Faults := mkFaults {
  login_raises : bool;
  get_issues_raises : bool;
  create_issue_raises : bool;
  get_comments_raises : bool;
  telebot_raises : bool;
  send_message_raises : bool;
  dingtalk_fails : bool;
  create_comment_raises : bool
}.

(** The instants the run reads: in the gate, in [make_get_up_message], for
    [get_up_time], and the creation instant of the comment it posts. *)
Record Clock := mkClock {
  t_gate : Z;
  t_message : Z;
  t_get_up : Z;
  t_comment : Z
}.

(** What the run can change: the comments of the open issue titled
    ["GET UP"] ([None] when there is no such issue), and what was delivered
    to each channel. *)
Record World := mkWorld {
  tracking_issue : option (list IssueComment);
  telegram_sent : list string;
  dingtalk_sent : list string
}.

(** How [main] ends. *)
Inductive exit :=
| Returned
| Raised (e : pyexn).

Definition nonempty (s : string) : bool := negb (String.eqb s "").

Section Main.
Variable format_1f : float -> string.
Variable repr_container : json -> string.
Variable str_strip : string -> string.
Variable convert : string -> string.
(** [telegramify_markdown.markdownify]. *)
Variable markdownify : string -> string.
Variable username : string.

Definition make_get_up_message (feeds : Feeds) (now : Z) : py Message :=
  let is_get_up_early := (3 <=? hour (in_timezone now)) && (hour (in_timezone now) <=? 9) in
  let day_of_year := get_day_of_year now in
  year_progress <- get_year_progress format_1f now ;;
  github_activity <- get_yesterday_github_activity (feed_pr_search feeds)
                       (feed_issue_search feeds) (feed_events feeds) now username ;;
  history_today <- get_history_today repr_container str_strip convert (feed_rng feeds)
                     (feed_wikimedia feeds) (feed_baidu feeds) now BIRTH_YEAR 3 ;;
  ret {| sentence := feed_sentence feeds;
         is_get_up_early := is_get_up_early;
         msg_day_of_year := day_of_year;
         year_progress := year_progress;
         github_activity := github_activity;
         running_info := feed_running_info feeds;
         history_today := history_today;
         street_view := feed_street_view feeds |}.

(** [GET_UP_MESSAGE_TEMPLATE.format(...)]. *)
Definition format_body (get_up_time : string) (m : Message) : string :=
  "今天的起床时间是--" ++ get_up_time ++ "。" ++ nl ++ nl
    ++ "起床啦。" ++ nl ++ nl
    ++ "今天是今年的第 " ++ str_of_int (msg_day_of_year m) ++ " 天。" ++ nl ++ nl
    ++ year_progress m ++ nl ++ nl
    ++ github_activity m ++ nl ++ nl
    ++ running_info m ++ nl ++ nl
    ++ history_today m ++ nl ++ nl
    ++ street_view m ++ nl ++ nl
    ++ "今天的一首诗:" ++ nl ++ nl
    ++ sentence m ++ nl.

(** Lines 762-781: the open issue titled ["GET UP"], created when the
    search finds none or raises; [None] when [main] returns at line 781. *)
Definition find_or_create_issue (faults : Faults) (w : World) : option World :=
  let create :=
    if create_issue_raises faults then None
    else Some {| tracking_issue := Some [];
                 telegram_sent := telegram_sent w;
                 dingtalk_sent := dingtalk_sent w |} in
  if get_issues_raises faults then create
  else match tracking_issue w with
       | Some _ => Some w
       | None => create
       end.

(** Lines 812-838: the dispatch of a body.  With a token and a chat id the
    bot is built first, and an exception of its constructor ends the run
    before anything is sent or recorded. *)
Definition dispatch (opts : Options) (faults : Faults) (clock : Clock)
           (body : string) (w : World) : World * exit :=
  let telegram := nonempty (tele_token opts) && nonempty (tele_chat_id opts) in
  if telegram && telebot_raises faults then (w, Raised ValueError)
  else
    let w1 :=
      if telegram && negb (send_message_raises faults)
      then {| tracking_issue := tracking_issue w;
              telegram_sent := (telegram_sent w ++ [markdownify body])%list;
              dingtalk_sent := dingtalk_sent w |}
      else w in
    let w2 :=
      if nonempty (dingtalk_webhook opts) && negb (dingtalk_fails faults)
      then {| tracking_issue := tracking_issue w1;
              telegram_sent := telegram_sent w1;
              dingtalk_sent := (dingtalk_sent w1 ++ [body])%list |}
      else w1 in
    if create_comment_raises faults then (w2, Raised RequestException)
    else
      let cleaned_body := remove_github_links body in
      let comment := {| created_at := t_comment clock; comment_body := cleaned_body |} in
      ({| tracking_issue :=
            Some (match tracking_issue w2 with
                  | Some comments => comments ++ [comment]
                  | None => [comment]
                  end)%list;
          telegram_sent := telegram_sent w2;
          dingtalk_sent := dingtalk_sent w2 |}, Returned).

Definition main (opts : Options) (faults : Faults) (clock : Clock) (feeds : Feeds)
           (w : World) : World * exit :=
  if login_raises faults then (w, Raised RequestException)
  else
    match find_or_create_issue faults w with
    | None => (w, Returned)
    | Some w0 =>
        if get_comments_raises faults then (w0, Raised RequestException)
        else
          let comments := match tracking_issue w0 with Some cs => cs | None => [] end in
          let is_today := get_today_get_up_status comments (t_gate clock) in
          if truthy is_today then (w0, Returned)
          else
            match make_get_up_message feeds (t_message clock) with
            | inl e => (w0, Raised e)
            | inr m =>
                let get_up_time := to_datetime_string (in_timezone (t_get_up clock)) in
                let body := format_body get_up_time m in
                if is_get_up_early m then dispatch opts faults clock body w0
                else (w0, Returned)
            end
    end.
End Main.

(** The characters between the label of a Markdown link and the path of a
    GitHub URL. *)
Definition link_opening : string := "](https://github.com/".


(** *** The calendar, year by year *)

(** A check over a range of integers. *)
Fixpoint all_from (n : nat) (i : Z) (p : Z -> bool) : bool :=
  match n with
  | O => true
  | S n' => p i && all_from n' (i + 1) p
  end.

(** The year of the era that [civil_from_days] finds for day [doe] of the
    era, and the first day of year [n] of the era; eras are the 400-year
    cycles that start on a first of March. *)
Definition year_of_era (doe : Z) : Z :=
  (doe - doe / 1460 + doe / 36524 - doe / 146096) / 365.

Definition era_year_start (n : Z) : Z := 365 * n + n / 4 - n / 100 + n / 400.

Definition era_year_ok (n : Z) : bool :=
  (year_of_era (era_year_start n) =? n)
  && (year_of_era (era_year_start (n + 1) - 1) =? n).

(** ** The poem ([get_one_sentence]) *)

Definition DEFAULT_SENTENCE : string :=
  "《回乡偶书》  " ++ nl
    ++ "少小离家老大回，  " ++ nl
    ++ "乡音无改鬓毛衰。  " ++ nl
    ++ "儿童相见不相识，  " ++ nl
    ++ "笑问客从何处来。  " ++ nl
    ++ nl
    ++ "—— 唐·贺知章".

(** [sep.join(items)]: the items must be strs; a str is joined character
    by character, a dict key by key. *)
Definition join_items (sep : string) (items : json) : py string :=
  match items with
  | JArr xs =>
      parts <- map_py (fun x => match x with
                                | JStr s => ret s
                                | _ => raise TypeError
                                end) xs ;;
      ret (join sep parts)
  | JStr s => ret (join sep (code_points s))
  | JObj kvs => ret (join sep (map fst kvs))
  | _ => raise TypeError
  end.

Section Poem.
Variable repr_container : json -> string.

(** [resp] is what [requests.get(SENTENCE_API, timeout=10)] gives. *)
Definition get_one_sentence (resp : http_response) : py string :=
  catch
    (match resp with
     | ConnectionFailed => raise RequestException
     | Response ok body =>
         if ok then
           data <- response_json body ;;
           inner <- dict_get data "data" (JObj []) ;;
           origin <- dict_get inner "origin" (JObj []) ;;
           title <- dict_get origin "title" (JStr "") ;;
           dynasty <- dict_get origin "dynasty" (JStr "") ;;
           author <- dict_get origin "author" (JStr "") ;;
           content_list <- dict_get origin "content" (JArr []) ;;
           if json_truthy content_list && json_truthy title && json_truthy author then
             content <- join_items ("  " ++ nl) content_list ;;
             let poem :=
               "《" ++ py_format repr_container title ++ "》  " ++ nl
                    ++ content ++ "  " ++ nl ++ nl
                    ++ "—— " ++ py_format repr_container dynasty
                    ++ "·" ++ py_format repr_container author in
             ret poem
           else ret DEFAULT_SENTENCE
         else ret DEFAULT_SENTENCE
     end)
    (fun _ => ret DEFAULT_SENTENCE).
End Poem.

(** ** The street view ([get_random_street_view]) *)

Definition sites : list (string * string) := [
  ("🇯🇵 日本", "https://randomstreetview.com/#jpn");
  ("🇮🇹 意大利", "https://randomstreetview.com/#ita");
  ("🇫🇷 法国", "https://randomstreetview.com/#fra");
  ("🇬🇧 英国", "https://randomstreetview.com/#gbr");
  ("🇺🇸 美国", "https://randomstreetview.com/#usa");
  ("🇦🇺 澳大利亚", "https://randomstreetview.com/#aus");
  ("🇧🇷 巴西", "https://randomstreetview.com/#bra");
  ("🇿🇦 南非", "https://randomstreetview.com/#zaf");
  ("🇹🇭 泰国", "https://randomstreetview.com/#tha");
  ("🇲🇽 墨西哥", "https://randomstreetview.com/#mex");
  ("🇪🇸 西班牙", "https://randomstreetview.com/#esp");
  ("🇩🇪 德国", "https://randomstreetview.com/#deu");
  ("🇵🇹 葡萄牙", "https://randomstreetview.com/#prt");
  ("🇳🇴 挪威", "https://randomstreetview.com/#nor");
  ("🇸🇪 瑞典", "https://randomstreetview.com/#swe");
  ("🇫🇮 芬兰", "https://randomstreetview.com/#fin");
  ("🇵🇱 波兰", "https://randomstreetview.com/#pol");
  ("🇨🇿 捷克", "https://randomstreetview.com/#cze");
  ("🇬🇷 希腊", "https://randomstreetview.com/#grc");
  ("🇹🇷 土耳其", "https://randomstreetview.com/#tur");
  ("🇷🇺 俄罗斯", "https://randomstreetview.com/#rus");
  ("🇦🇷 阿根廷", "https://randomstreetview.com/#arg");
  ("🇨🇱 智利", "https://randomstreetview.com/#chl");
  ("🇨🇴 哥伦比亚", "https://randomstreetview.com/#col");
  ("🇵🇪 秘鲁", "https://randomstreetview.com/#per");
  ("🇮🇩 印尼", "https://randomstreetview.com/#idn");
  ("🇲🇾 马来西亚", "https://randomstreetview.com/#mys");
  ("🇸🇬 新加坡", "https://randomstreetview.com/#sgp");
  ("🇵🇭 菲律宾", "https://randomstreetview.com/#phl");
  ("🇹🇼 台湾", "https://randomstreetview.com/#twn");
  ("🇭🇰 香港", "https://randomstreetview.com/#hkg");
  ("🇰🇷 韩国", "https://randomstreetview.com/#kor");
  ("🇮🇱 以色列", "https://randomstreetview.com/#isr");
  ("🇦🇪 阿联酋", "https://randomstreetview.com/#are");
  ("🇮🇪 爱尔兰", "https://randomstreetview.com/#irl");
  ("🇳🇱 荷兰", "https://randomstreetview.com/#nld");
  ("🇧🇪 比利时", "https://randomstreetview.com/#bel");
  ("🇨🇭 瑞士", "https://randomstreetview.com/#che");
  ("🇦🇹 奥地利", "https://randomstreetview.com/#aut");
  ("🌍 全球随机", "https://randomstreetview.com/")
].

(** [now.year * 1000 + now.day_of_year]. *)
Definition day_seed (now : Z) : Z :=
  let dt := in_timezone now in
  year dt * 1000 + day_of_year dt.

Section StreetView.
(** The raw value that [random.choice] draws from the generator right after
    [random.seed(seed)]; the [random.seed()] that follows the choice only
    re-seeds the generator for later calls. *)
Variable seeded_draw : Z -> nat.

Definition get_random_street_view (now : Z) : py string :=
  catch
    (let g := {| sample_draw := fun _ => O; choice_draw := seeded_draw (day_seed now) |} in
     site <- random_choice g sites ;;
     let '(name, url) := site in
     ret ("今日街景：" ++ name ++ nl ++ nl ++ "[开始随机街景之旅](" ++ url ++ ")"))
    (fun _ => ret "").
End StreetView.

(** ** Inputs of the examples *)

(** Whether the float computation of [filled_blocks] agrees with the exact
    floor on day [n] of a year of [total] days. *)
Definition floor_agrees (total : Z) (n : nat) : bool :=
  match filled_blocks (Z.of_nat n) total with
  | inr k => k =? 20 * Z.of_nat n / total
  | inl _ => false
  end.

(** 2024-03-06 09:00:00 and 2025-03-06 07:30:00, Shanghai time. *)
Definition a_year_ago : Z := 1709686800 * 1000000.
Definition this_morning : Z := 1741217400 * 1000000.

(** *** Sample event streams *)

Definition window_start : Z := 1741104000 * 1000000.
Definition window_end : Z := window_start + usec_per_day - 1.

Definition no_payload : Payload :=
  {| action := None; pull_request := None; issue := None |}.

(** An event created one second before the window opens. *)
Definition old_event : Event :=
  {| created := window_start - 1000000; public := Some true;
     event_type := "PushEvent"; repo_name := "coutureone/2026";
     payload := no_payload |}.

(** A star given inside the window. *)
Definition star_event : Event :=
  {| created := window_start + 3600 * 1000000; public := Some true;
     event_type := "WatchEvent"; repo_name := "rocq-prover/rocq";
     payload := {| action := Some "started"; pull_request := None; issue := None |} |}.

Definition star_line : string :=
  "Star 了项目: [rocq-prover/rocq](https://github.com/rocq-prover/rocq)".

(** A stream whose first page is full and opens with the old event, and
    whose second page holds the star. *)
Definition stale_first_page (page : Z) : api_result Event :=
  if page =? 1 then ApiOk (old_event :: repeat star_event 29)
  else if page =? 2 then ApiOk [star_event]
  else ApiOk [].

(** The property that an old event ends the scan of the whole stream: a
    page on which one was met is the last page requested. *)
Definition old_event_ends_stream : Prop :=
  forall (fetch : Z -> api_result Event) (yesterday_start yesterday_end : Z)
         (page : Z) (events : list Event),
    In page (fst (pages_loop fetch event_pages yesterday_start yesterday_end)) ->
    fetch page = ApiOk events ->
    Exists (fun e => created e < yesterday_start) (firstn 100 events) ->
    forall later,
      In later (fst (pages_loop fetch event_pages yesterday_start yesterday_end)) ->
      later <= page.

(** *** Sample search results *)

Definition a_pull_request : SearchItem :=
  {| item_login := "coutureone";
     item_repository_url := "https://api.github.com/repos/coutureone/2026";
     item_title := "Add the digest";
     item_html_url := "https://github.com/coutureone/2026/pull/7" |}.

Definition pr_line : string :=
  "创建了 PR: [Add the digest](https://github.com/coutureone/2026/pull/7) (coutureone/2026)".

(** *** Sample provider payloads *)

(** A Baidu month file whose entry for 03-06 has a year but neither title
    nor description. *)
Definition baidu_untitled : http_response :=
  Response true (Some (JObj [("03", JObj [("0306",
    JArr [JObj [("year", JStr "1999年")]])])])).






(** *** The selector, in the words of its description *)

(** The year of a normalized event. *)
Definition year_value (e : HistoricalEvent) : Z :=
  match ev_year e with
  | JNum n => n
  | JBool true => 1
  | _ => 0
  end.

(** A normalized event: its year is resolved to an integer. *)
Definition normalized (e : HistoricalEvent) : Prop := exists y, ev_year e = JNum y.

(** The events with [birthYear <= year <= currentYear]. *)
Definition lifetime_events (birth_year current_year : Z) (events : list HistoricalEvent)
  : list HistoricalEvent :=
  filter (fun e => (birth_year <=? year_value e) && (year_value e <=? current_year)) events.

(** The events with [year > 0]. *)
Definition positive_events (events : list HistoricalEvent) : list HistoricalEvent :=
  filter (fun e => 0 <? year_value e) events.

(** An event whose year compares with an int. *)
Definition int_year (e : HistoricalEvent) : Prop := exists y, as_int (ev_year e) = inr y.

Definition keyed_by_year (events : list HistoricalEvent) : list (Z * HistoricalEvent) :=
  map (fun e => (year_value e, e)) events.

(** The list the sort leaves. *)
Definition sorted_by_year (events : list HistoricalEvent) : list HistoricalEvent :=
  map snd (sort_desc (keyed_by_year events)).

(** *** Sample events *)

Definition event_of (y : Z) (text : string) : HistoricalEvent :=
  {| ev_year := JNum y; ev_text := JStr text; ev_wiki_url := Some (JStr "") |}.

Definition four_events : list HistoricalEvent :=
  [event_of 2001 "W1"; event_of 1980 "old"; event_of 2010 "ten"; event_of 2005 "five"].

Definition ancient_events : list HistoricalEvent :=
  [event_of (-44) "Caesar"; event_of 0 "zero"].

(** A generator that always hands out 1. *)
Definition ones : rng := {| sample_draw := fun _ => 1%nat; choice_draw := 1 |}.

(** Stand-ins for the library functions the selector is parameterized by. *)
Definition no_repr (v : json) : string := "".
Definition as_is (s : string) : string := s.

(** A Baidu month file with one event for 03-06. *)
Definition baidu_one : http_response :=
  Response true (Some (JObj [("03", JObj [("0306",
    JArr [JObj [("year", JStr "1999年"); ("title", JStr "Event A")]])])])).

(** *** The gate of a run, and a sample run *)

(** The run gets past line 786: the repository is reached, an issue is at
    hand, its comments are read, and the gate's answer is not taken as
    true. *)
Definition passes_gate (faults : Faults) (clock : Clock) (w : World) : bool :=
  negb (login_raises faults)
  && match find_or_create_issue faults w with
     | None => false
     | Some w0 =>
         negb (get_comments_raises faults)
         && negb (truthy (get_today_get_up_status
                            (match tracking_issue w0 with Some cs => cs | None => [] end)
                            (t_gate clock)))
     end.

Definition no_faults : Faults :=
  {| login_raises := false; get_issues_raises := false; create_issue_raises := false;
     get_comments_raises := false; telebot_raises := false;
     send_message_raises := false; dingtalk_fails := false;
     create_comment_raises := false |}.

(** The Telegram send fails, inside its [try]. *)
Definition telegram_down : Faults :=
  {| login_raises := false; get_issues_raises := false; create_issue_raises := false;
     get_comments_raises := false; telebot_raises := false;
     send_message_raises := true; dingtalk_fails := false;
     create_comment_raises := false |}.

(** The constructor of the bot rejects the token. *)
Definition bot_rejected : Faults :=
  {| login_raises := false; get_issues_raises := false; create_issue_raises := false;
     get_comments_raises := false; telebot_raises := true;
     send_message_raises := false; dingtalk_fails := false;
     create_comment_raises := false |}.

(** The credentials are refused: [u.get_repo] raises. *)
Definition login_refused : Faults :=
  {| login_raises := true; get_issues_raises := false; create_issue_raises := false;
     get_comments_raises := false; telebot_raises := false;
     send_message_raises := false; dingtalk_fails := false;
     create_comment_raises := false |}.

(** Both channels configured, with a token of the shape the bot accepts. *)
Definition all_channels : Options :=
  {| tele_token := "110201543:AAHdqTcvCH1vGWJxfSeofSAs0K5PALDsaw"; tele_chat_id := "42";
     dingtalk_webhook := "https://oapi.dingtalk.com/robot/send?access_token=t";
     dingtalk_secret := "" |}.

(** The same, with a token that has no colon. *)
Definition malformed_token : Options :=
  {| tele_token := "token"; tele_chat_id := "42";
     dingtalk_webhook := "https://oapi.dingtalk.com/robot/send?access_token=t";
     dingtalk_secret := "" |}.

(** The tracking issue with one comment, posted the day before. *)
Definition yesterday_logged : World :=
  {| tracking_issue := Some [mkComment window_start "GET UP"];
     telegram_sent := []; dingtalk_sent := [] |}.

Definition quiet_feeds : Feeds :=
  {| feed_sentence := "poem";
     feed_pr_search := ApiOk []; feed_issue_search := ApiOk [];
     feed_events := fun _ => ApiOk [];
     feed_running_info := ""; feed_wikimedia := ConnectionFailed;
     feed_baidu := ConnectionFailed; feed_rng := ones; feed_street_view := "" |}.

(** A run at 07:30 and a run at 12:30, Shanghai time. *)
Definition early_clock : Clock :=
  {| t_gate := this_morning; t_message := this_morning;
     t_get_up := this_morning; t_comment := this_morning |}.

Definition late_clock : Clock :=
  let noon := this_morning + 5 * 3600 * 1000000 in
  {| t_gate := noon; t_message := noon; t_get_up := noon; t_comment := noon |}.

(** A well-formed answer of the poem service. *)
Definition poem_origin : list (string * json) :=
  [("title", JStr "静夜思"); ("dynasty", JStr "唐"); ("author", JStr "李白");
   ("content", JArr [JStr "床前明月光，"; JStr "疑是地上霜。"])].

Definition poem_inner : list (string * json) :=
  [("content", JStr "床前明月光，"); ("origin", JObj poem_origin)].

Definition poem_body : json :=
  JObj [("status", JStr "success"); ("data", JObj poem_inner)].

(** * Properties

    ** The error monad *)

Lemma bind_inr {A B} (a : A) (f : A -> py B) : (x <- (inr a : py A) ;; f x) = f a.
Proof. reflexivity. Qed.

Lemma bind_inl {A B} (e : pyexn) (f : A -> py B) : (x <- (inl e : py A) ;; f x) = inl e.
Proof. reflexivity. Qed.

Lemma ret_inr {A} (a : A) : (ret a : py A) = inr a.
Proof. reflexivity. Qed.

(** ** Year progress *)

Lemma is_leap_year_spec (y : Z) :
  is_leap_year y = true <-> (4 | y) /\ (~ (100 | y) \/ (400 | y)).
Proof.
  unfold is_leap_year.
  rewrite andb_true_iff, orb_true_iff, negb_true_iff, Z.eqb_neq, !Z.eqb_eq.
  rewrite <- !Z.mod_divide by lia. tauto.
Qed.

Lemma floor_agrees_365 : forallb (floor_agrees 365) (seq 1 365) = true.
Proof. vm_compute. reflexivity. Qed.

Lemma floor_agrees_366 : forallb (floor_agrees 366) (seq 1 366) = true.
Proof. vm_compute. reflexivity. Qed.

Lemma filled_blocks_floor (y d : Z) :
  1 <= d <= total_days y ->
  filled_blocks d (total_days y) = inr (20 * d / total_days y).
Proof.
  intros Hd.
  assert (Hin : In (Z.to_nat d) (seq 1 (Z.to_nat (total_days y)))).
  { apply in_seq. lia. }
  assert (Hagree : floor_agrees (total_days y) (Z.to_nat d) = true).
  { unfold total_days in *. destruct (is_leap_year y).
    - exact (proj1 (forallb_forall _ _) floor_agrees_366 _ Hin).
    - exact (proj1 (forallb_forall _ _) floor_agrees_365 _ Hin). }
  unfold floor_agrees in Hagree. rewrite Z2Nat.id in Hagree by lia.
  destruct (filled_blocks d (total_days y)) as [e | k]; [discriminate |].
  apply Z.eqb_eq in Hagree. now subst.
Qed.

Lemma concat_empty_app (l1 l2 : list string) :
  String.concat "" (l1 ++ l2) = String.concat "" l1 ++ String.concat "" l2.
Proof.
  induction l1 as [| x l1 IH]; [reflexivity |].
  assert (Hcons : forall l, String.concat "" (x :: l) = x ++ String.concat "" l).
  { intros [| z l]; simpl; [| reflexivity].
    clear. induction x as [| c x IHx]; simpl; [reflexivity | now rewrite <- IHx]. }
  change ((x :: l1) ++ l2)%list with (x :: (l1 ++ l2))%list.
  rewrite !Hcons, IH.
  clear. induction x as [| c x IHx]; simpl; [reflexivity | now rewrite IHx].
Qed.


(** ** The idempotency gate *)

(** C1: on an empty comment list the gate returns the pair [(False, [])],
    which [if is_today:] takes as true, so [main] returns as if the day were
    recorded whatever the hour; on a non-empty list it returns the boolean
    that compares day and month of the latest comment with those of now, on
    the Shanghai clock, the year playing no part. *)
Theorem gate_empty_log_is_truthy :
  (forall now,
      get_today_get_up_status [] now = PyTuple [PyBool false; PyList []]
      /\ truthy (get_today_get_up_status [] now) = true)
  /\ (forall older latest now,
         get_today_get_up_status (older ++ [latest])%list now =
         PyBool ((day (in_timezone (created_at latest)) =? day (in_timezone now))
                   && (month (in_timezone (created_at latest))
                         =? month (in_timezone now))))
  /\ get_today_get_up_status [mkComment a_year_ago "GET UP"] this_morning = PyBool true
  /\ (forall format_1f repr_container str_strip convert markdownify username
             opts clock feeds sent_t sent_d
             create_raises bot_raises send_raises post_fails comment_raises,
         let w := {| tracking_issue := Some [];
                     telegram_sent := sent_t; dingtalk_sent := sent_d |} in
         main format_1f repr_container str_strip convert markdownify username opts
              {| login_raises := false;
                 get_issues_raises := false; create_issue_raises := create_raises;
                 get_comments_raises := false; telebot_raises := bot_raises;
                 send_message_raises := send_raises; dingtalk_fails := post_fails;
                 create_comment_raises := comment_raises |}
              clock feeds w = (w, Returned)).
Proof.
  split; [intros now; split; reflexivity |].
  split.
  - intros older latest now. unfold get_today_get_up_status.
    destruct older as [| c older]; [reflexivity |].
    change ((c :: older) ++ [latest])%list with (c :: (older ++ [latest]))%list.
    cbv beta iota zeta. rewrite last_last. reflexivity.
  - split; [vm_compute; reflexivity |]. intros. reflexivity.
Qed.

(** ** The event stream *)

Lemma scan_events_stops (pre post : list Event) (old : Event) (s e : Z) :
  created old < s ->
  scan_events (pre ++ old :: post) s e = scan_events pre s e.
Proof.
  intros Hold. induction pre as [| x pre IH]; simpl.
  - apply Z.ltb_lt in Hold. now rewrite Hold.
  - destruct (created x <? s); [reflexivity |].
    destruct (negb _); [exact IH |].
    destruct (negb _); [exact IH |].
    now rewrite IH.
Qed.

Lemma process_events_stops (pre post : list Event) (old : Event) (s e : Z) :
  created old < s ->
  _process_events (pre ++ old :: post) s e = _process_events pre s e.
Proof.
  intros Hold. unfold _process_events.
  rewrite firstn_app.
  destruct (Nat.le_gt_cases 100 (List.length pre)) as [Hlen | Hlen].
  - replace (100 - List.length pre)%nat with 0%nat by lia.
    now rewrite firstn_O, app_nil_r.
  - rewrite (firstn_all2 (n := 100) pre) by lia.
    destruct (100 - List.length pre)%nat as [| k] eqn:Hk; [lia |].
    rewrite firstn_cons. now apply scan_events_stops.
Qed.

Lemma pages_loop_log_prefix (fetch : Z -> api_result Event) (pages : list Z) (s e : Z) :
  exists rest, pages = (fst (pages_loop fetch pages s e) ++ rest)%list.
Proof.
  induction pages as [| page more IH]; simpl.
  - now exists [].
  - destruct IH as [rest IH].
    destruct (fetch page) as [events_data | err].
    + destruct (is_empty events_data); [now exists more |].
      destruct (_process_events events_data s e); [now exists more |].
      destruct (_ <? page_size); [now exists more |].
      destruct (pages_loop fetch more s e) as [log r]. simpl in *.
      exists rest. now rewrite <- IH.
    + destruct (pages_loop fetch more s e) as [log r]. simpl in *.
      exists rest. now rewrite <- IH.
Qed.

Lemma pages_loop_log_incl (fetch : Z -> api_result Event) (pages : list Z) (s e : Z) :
  incl (fst (pages_loop fetch pages s e)) pages.
Proof.
  destruct (pages_loop_log_prefix fetch pages s e) as [rest H].
  intros p Hp. rewrite H. apply in_or_app. now left.
Qed.

Lemma pages_loop_short_page_last (fetch : Z -> api_result Event) (pages : list Z) (s e : Z) :
  StronglySorted Z.lt pages ->
  forall page events,
    In page (fst (pages_loop fetch pages s e)) ->
    fetch page = ApiOk events ->
    Z.of_nat (List.length events) < page_size ->
    forall later, In later (fst (pages_loop fetch pages s e)) -> later <= page.
Proof.
  induction 1 as [| p more Hsorted IH Hlt]; intros page events Hin Hfetch Hshort later Hlater.
  - contradiction.
  - rewrite Forall_forall in Hlt.
    pose proof (pages_loop_log_incl fetch more s e) as Hincl.
    simpl in Hin, Hlater.
    destruct (fetch p) as [events_data | err] eqn:Hp.
    + assert (Hsingle : forall q, In q [p] -> q = p) by (intros q [<- | []]; reflexivity).
      destruct (is_empty events_data);
        [apply Hsingle in Hin, Hlater; lia |].
      destruct (_process_events events_data s e);
        [apply Hsingle in Hin, Hlater; lia |].
      destruct (Z.of_nat (List.length events_data) <? page_size) eqn:Hfull;
        [apply Hsingle in Hin, Hlater; lia |].
      destruct (pages_loop fetch more s e) as [log r]. simpl in *.
      destruct Hin as [<- | Hin].
      * rewrite Hp in Hfetch. injection Hfetch as <-.
        apply Z.ltb_ge in Hfull. lia.
      * destruct Hlater as [<- | Hlater].
        -- specialize (Hlt page (Hincl page Hin)). lia.
        -- eapply IH; eauto.
    + destruct (pages_loop fetch more s e) as [log r]. simpl in *.
      destruct Hin as [<- | Hin]; [congruence |].
      destruct Hlater as [<- | Hlater].
      * specialize (Hlt page (Hincl page Hin)). lia.
      * eapply IH; eauto.
Qed.

Lemma event_pages_sorted : StronglySorted Z.lt event_pages.
Proof. repeat constructor; lia. Qed.

Lemma pages_loop_cons (fetch : Z -> api_result Event) (page : Z) (more : list Z)
      (s e : Z) :
  pages_loop fetch (page :: more) s e
  = match fetch page with
    | ApiError _ =>
        let '(log, r) := pages_loop fetch more s e in (page :: log, r)
    | ApiOk events_data =>
        if is_empty events_data then ([page], ret [])
        else
          match _process_events events_data s e with
          | inl exn => ([page], inl exn)
          | inr page_activities =>
              if Z.of_nat (List.length events_data) <? page_size
              then ([page], ret page_activities)
              else
                let '(log, r) := pages_loop fetch more s e in
                (page :: log,
                 all_activities <- r ;;
                 ret (page_activities ++ all_activities)%list)
          end
    end.
Proof. reflexivity. Qed.

Lemma pages_loop_log_head (fetch : Z -> api_result Event) (page : Z) (more : list Z)
      (s e : Z) :
  exists log, fst (pages_loop fetch (page :: more) s e) = page :: log.
Proof.
  rewrite pages_loop_cons. destruct (fetch page) as [events_data | err].
  - destruct (is_empty events_data); [now exists [] |].
    destruct (_process_events events_data s e); [now exists [] |].
    destruct (_ <? page_size); [now exists [] |].
    destruct (pages_loop fetch more s e) as [log r]. now exists log.
  - destruct (pages_loop fetch more s e) as [log r]. now exists log.
Qed.

(** After a page that gave an error, or a full page whose scan returned,
    the next page is requested. *)
Lemma pages_loop_log_next (fetch : Z -> api_result Event) (s e : Z)
      (pre : list Z) (p q : Z) (post : list Z) :
  ~ In p pre ->
  In p (fst (pages_loop fetch (pre ++ p :: q :: post) s e)) ->
  (exists error, fetch p = ApiError error)
  \/ (exists events acts,
         fetch p = ApiOk events
         /\ page_size <= Z.of_nat (List.length events)
         /\ _process_events events s e = inr acts) ->
  In q (fst (pages_loop fetch (pre ++ p :: q :: post) s e)).
Proof.
  intros Hfresh Hin Hgoes. induction pre as [| a pre IH].
  - cbn [app] in *. clear Hin. rewrite pages_loop_cons.
    destruct (pages_loop_log_head fetch q post s e) as [log Hlog].
    destruct Hgoes as [[error ->] | (events & acts & -> & Hfull & ->)].
    + destruct (pages_loop fetch (q :: post) s e) as [log' r]. cbn [fst] in *.
      subst log'. right. now left.
    + destruct events as [| ev events]; [cbn in Hfull; unfold page_size in Hfull; lia |].
      cbn [is_empty]. apply Z.ltb_ge in Hfull. rewrite Hfull.
      destruct (pages_loop fetch (q :: post) s e) as [log' r]. cbn [fst] in *.
      subst log'. right. now left.
  - assert (Hne : a <> p) by (intros ->; apply Hfresh; now left).
    assert (Hfresh' : ~ In p pre) by (intros H; apply Hfresh; now right).
    change ((a :: pre) ++ p :: q :: post)%list with (a :: (pre ++ p :: q :: post))%list in *.
    rewrite pages_loop_cons in Hin |- *.
    assert (Hsingle : In p [a] -> False) by (intros [H | []]; congruence).
    destruct (fetch a) as [events_data | err].
    + destruct (is_empty events_data); [now elim Hsingle |].
      destruct (_process_events events_data s e); [now elim Hsingle |].
      destruct (_ <? page_size); [now elim Hsingle |].
      destruct (pages_loop fetch (pre ++ p :: q :: post) s e) as [log r]. cbn [fst] in *.
      destruct Hin as [H | Hin]; [congruence |]. right. now apply IH.
    + destruct (pages_loop fetch (pre ++ p :: q :: post) s e) as [log r]. cbn [fst] in *.
      destruct Hin as [H | Hin]; [congruence |]. right. now apply IH.
Qed.

(** The activities gathered are those of the scans of the pages requested,
    in the order of the pages. *)
Lemma pages_loop_gathers (fetch : Z -> api_result Event) (pages : list Z) (s e : Z)
      (acts : list string) :
  snd (pages_loop fetch pages s e) = inr acts ->
  exists per_page,
    Forall2 (fun page page_acts =>
               match fetch page with
               | ApiOk events => _process_events events s e = inr page_acts
               | ApiError _ => page_acts = []
               end) (fst (pages_loop fetch pages s e)) per_page
    /\ acts = List.concat per_page.
Proof.
  revert acts. induction pages as [| page more IH]; intros acts.
  - cbn [pages_loop fst snd]. intros [= <-]. exists []. split; [constructor | reflexivity].
  - rewrite pages_loop_cons. destruct (fetch page) as [events_data | err] eqn:Hfetch.
    + destruct events_data as [| ev events_data]; cbn [is_empty].
      { cbn [fst snd]. intros [= <-]. exists [[]]. split; [| reflexivity].
        constructor; [| constructor]. rewrite Hfetch. reflexivity. }
      destruct (_process_events (ev :: events_data) s e) as [exn | page_acts] eqn:Hscan;
        [discriminate |].
      destruct (_ <? page_size).
      { cbn [fst snd]. intros [= <-]. exists [page_acts]. split.
        - constructor; [| constructor]. rewrite Hfetch. exact Hscan.
        - cbn [List.concat]. now rewrite app_nil_r. }
      destruct (pages_loop fetch more s e) as [log r]. cbn [fst snd] in *.
      destruct r as [exn | rest_acts]; [discriminate |].
      rewrite bind_inr, ret_inr. intros [= <-].
      destruct (IH rest_acts eq_refl) as (per_page & Hall & ->).
      exists (page_acts :: per_page). split; [| reflexivity].
      constructor; [| exact Hall]. rewrite Hfetch. exact Hscan.
    + destruct (pages_loop fetch more s e) as [log r]. cbn [fst snd] in *.
      intros Hr. destruct (IH acts Hr) as (per_page & Hall & ->).
      exists ([] :: per_page). split; [| reflexivity].
      constructor; [| exact Hall]. rewrite Hfetch. reflexivity.
Qed.

(** C2, as the code has it: an event older than the window start ends the
    scan of its own page only, so nothing after it on that page becomes an
    activity, while the paging goes on: the first page is always requested,
    and after a page that gave an error, or a full page whose scan
    returned, the next page is requested too, and the activities gathered
    are those of the scans of all the pages requested, in order.  A page
    that comes back empty or with fewer than 30 events is the last page
    requested; the pages requested are an initial segment of 1, 2, 3, so
    there are at most three of them. *)
Theorem event_stream_stops_within_page
        (fetch : Z -> api_result Event) (yesterday_start yesterday_end : Z) :
  let requested := fst (pages_loop fetch event_pages yesterday_start yesterday_end) in
  (forall pre old post,
      created old < yesterday_start ->
      _process_events (pre ++ old :: post) yesterday_start yesterday_end
      = _process_events pre yesterday_start yesterday_end)
  /\ (forall page events,
         In page requested ->
         fetch page = ApiOk events ->
         Z.of_nat (List.length events) < page_size ->
         forall later, In later requested -> later <= page)
  /\ (exists rest, [1; 2; 3] = (requested ++ rest)%list)
  /\ (List.length requested <= 3)%nat
  /\ In 1 requested
  /\ (forall page,
         In page requested -> page < 3 ->
         (exists error, fetch page = ApiError error)
         \/ (exists events acts,
                fetch page = ApiOk events
                /\ page_size <= Z.of_nat (List.length events)
                /\ _process_events events yesterday_start yesterday_end = inr acts) ->
         In (page + 1) requested)
  /\ (forall acts,
         snd (pages_loop fetch event_pages yesterday_start yesterday_end) = inr acts ->
         exists per_page,
           Forall2 (fun page page_acts =>
                      match fetch page with
                      | ApiOk events =>
                          _process_events events yesterday_start yesterday_end
                          = inr page_acts
                      | ApiError _ => page_acts = []
                      end) requested per_page
           /\ acts = List.concat per_page).
Proof.
  intros requested. split; [| split; [| split; [| split; [| split; [| split]]]]].
  - intros pre old post Hold. now apply process_events_stops.
  - intros page events. apply pages_loop_short_page_last. apply event_pages_sorted.
  - apply (pages_loop_log_prefix fetch event_pages).
  - destruct (pages_loop_log_prefix fetch event_pages yesterday_start yesterday_end)
      as [rest H].
    apply (f_equal (@List.length Z)) in H. rewrite length_app in H.
    change (List.length event_pages) with 3%nat in H.
    unfold requested. lia.
  - destruct (pages_loop_log_head fetch 1 [2; 3] yesterday_start yesterday_end)
      as [log Hlog].
    unfold requested, event_pages. rewrite Hlog. now left.
  - intros page Hin Hlt Hgoes.
    pose proof (pages_loop_log_incl fetch event_pages yesterday_start yesterday_end
                                    page Hin) as Hpage.
    destruct Hpage as [<- | [<- | [<- | []]]]; [| | lia].
    + apply (pages_loop_log_next fetch yesterday_start yesterday_end [] 1 2 [3]);
        [intros [] | exact Hin | exact Hgoes].
    + apply (pages_loop_log_next fetch yesterday_start yesterday_end [1] 2 3 []);
        [intros [H | []]; discriminate H | exact Hin | exact Hgoes].
  - intros acts. apply pages_loop_gathers.
Qed.

Lemma event_stream_stops_within_page_witness :
  created old_event < window_start
  /\ _process_events ([star_event] ++ old_event :: [star_event]) window_start window_end
     = inr [star_line]
  /\ In 2 (fst (pages_loop stale_first_page event_pages window_start window_end))
  /\ pages_loop stale_first_page event_pages window_start window_end
     = ([1; 2], inr [star_line]).
Proof.
  destruct (event_stream_stops_within_page stale_first_page window_start window_end)
    as (Hscan & Hshort & _ & _ & Hfirst & Hnext & _).
  split; [vm_compute; reflexivity |]. split; [| split].
  - rewrite (Hscan [star_event] old_event [star_event]) by (vm_compute; reflexivity).
    vm_compute. reflexivity.
  - apply (Hnext 1 Hfirst); [lia |]. right.
    exists (old_event :: repeat star_event 29), [].
    split; [reflexivity |]. split; [vm_compute; discriminate | vm_compute; reflexivity].
  - vm_compute. reflexivity.
Defined.

Lemma old_event_does_not_end_stream :
  ~ old_event_ends_stream
  /\ created old_event < window_start
  /\ pages_loop stale_first_page event_pages window_start window_end
     = ([1; 2], inr [star_line]).
Proof.
  split; [| split; vm_compute; reflexivity].
  intros Hall.
  specialize (Hall stale_first_page window_start window_end 1
                     (old_event :: repeat star_event 29)).
  assert (H : 2 <= 1); [| lia].
  apply Hall.
  - vm_compute. auto.
  - reflexivity.
  - apply Exists_cons_hd. vm_compute. reflexivity.
  - vm_compute. auto.
Qed.

(** ** The activity merger *)

Lemma existsb_eqb_In (k : string) (d : list string) :
  existsb (String.eqb k) d = true <-> In k d.
Proof.
  rewrite existsb_exists. split.
  - intros (x & Hx & Heq). apply String.eqb_eq in Heq. now subst.
  - intros Hin. exists k. split; [assumption | apply String.eqb_refl].
Qed.

Lemma dict_add_In (d : list string) (k x : string) :
  In x (dict_add d k) <-> In x d \/ x = k.
Proof.
  unfold dict_add. destruct (existsb (String.eqb k) d) eqn:E.
  - apply existsb_eqb_In in E. split; [auto |]. intros [H | ->]; assumption.
  - rewrite in_app_iff. simpl. intuition.
Qed.

Lemma dict_add_NoDup (d : list string) (k : string) :
  NoDup d -> NoDup (dict_add d k).
Proof.
  intros Hd. unfold dict_add. destruct (existsb (String.eqb k) d) eqn:E; [assumption |].
  assert (Hk : ~ In k d).
  { intros Hin. apply existsb_eqb_In in Hin. congruence. }
  apply NoDup_app; [assumption | repeat constructor; auto |].
  intros x Hx [<- | []]. contradiction.
Qed.

Lemma dict_add_extends (d : list string) (k : string) :
  exists rest, dict_add d k = (d ++ rest)%list.
Proof.
  unfold dict_add. destruct (existsb (String.eqb k) d).
  - exists []. now rewrite app_nil_r.
  - now exists [k].
Qed.

Lemma fold_dict_add_In (keys d : list string) (x : string) :
  In x (fold_left dict_add keys d) <-> In x d \/ In x keys.
Proof.
  revert d. induction keys as [| k keys IH]; intros d; simpl.
  - tauto.
  - rewrite IH, dict_add_In. intuition.
Qed.

Lemma fold_dict_add_NoDup (keys d : list string) :
  NoDup d -> NoDup (fold_left dict_add keys d).
Proof.
  revert d. induction keys as [| k keys IH]; intros d Hd; simpl; [assumption |].
  apply IH. now apply dict_add_NoDup.
Qed.

Lemma fold_dict_add_extends (keys d : list string) :
  exists rest, fold_left dict_add keys d = (d ++ rest)%list.
Proof.
  revert d. induction keys as [| k keys IH]; intros d; simpl.
  - exists []. now rewrite app_nil_r.
  - destruct (dict_add_extends d k) as [r1 H1].
    destruct (IH (dict_add d k)) as [r2 H2].
    exists (r1 ++ r2)%list. now rewrite H2, H1, app_assoc.
Qed.

Lemma dict_fromkeys_In (keys : list string) (x : string) :
  In x (dict_fromkeys keys) <-> In x keys.
Proof. unfold dict_fromkeys. rewrite fold_dict_add_In. simpl. tauto. Qed.

Lemma dict_fromkeys_NoDup (keys : list string) : NoDup (dict_fromkeys keys).
Proof. apply fold_dict_add_NoDup. constructor. Qed.

(** The first occurrence of [x] lands right after the keys met before it. *)
Lemma dict_fromkeys_first_occurrence (seen later : list string) (x : string) :
  ~ In x seen ->
  exists after, dict_fromkeys (seen ++ x :: later) = (dict_fromkeys seen ++ x :: after)%list.
Proof.
  intros Hnew. unfold dict_fromkeys. rewrite fold_left_app. simpl.
  fold (dict_fromkeys seen).
  assert (Hadd : dict_add (dict_fromkeys seen) x = (dict_fromkeys seen ++ [x])%list).
  { unfold dict_add. destruct (existsb (String.eqb x) (dict_fromkeys seen)) eqn:E; [| reflexivity].
    apply existsb_eqb_In in E. apply (proj1 (dict_fromkeys_In _ _)) in E.
    contradiction. }
  rewrite Hadd.
  destruct (fold_dict_add_extends later (dict_fromkeys seen ++ [x])) as [rest H].
  exists rest. now rewrite H, <- app_assoc.
Qed.

Lemma NoDup_firstn {A} (n : nat) (l : list A) : NoDup l -> NoDup (firstn n l).
Proof.
  intros H. rewrite <- (firstn_skipn n l) in H. now apply NoDup_app_remove_r in H.
Qed.

Lemma collect_activities_inv pr_data issue_data fetch now username activities :
  collect_activities pr_data issue_data fetch now username = inr activities ->
  exists stream,
    snd (pages_loop fetch event_pages (fst (yesterday_window now))
                    (snd (yesterday_window now))) = inr stream
    /\ activities = (search_activities pr_data username "pr"
                       ++ search_activities issue_data username "issue"
                       ++ stream)%list.
Proof.
  unfold collect_activities. destruct (yesterday_window now) as [s e]. cbn [fst snd].
  destruct (snd (pages_loop fetch event_pages s e)) as [err | stream].
  - rewrite bind_inl. discriminate.
  - rewrite bind_inr, ret_inr. intros [= <-]. now exists stream.
Qed.

(** C4: the entries of the activity block are the first 15 of the list
    obtained from the concatenation PR search, Issue search, event stream by
    keeping the first occurrence of every rendered text, in the order of
    these first occurrences; no text occurs twice among them; and when the
    concatenation is empty the block is the empty string. *)
Theorem activity_merger_dedups_in_order
        pr_data issue_data fetch now username activities :
  collect_activities pr_data issue_data fetch now username = inr activities ->
  let unique := dict_fromkeys activities in
  let merged := merge_activities activities in
  (exists stream,
      snd (pages_loop fetch event_pages (fst (yesterday_window now))
                      (snd (yesterday_window now))) = inr stream
      /\ activities = (search_activities pr_data username "pr"
                         ++ search_activities issue_data username "issue"
                         ++ stream)%list)
  /\ merged = firstn 15 unique
  /\ NoDup merged
  /\ (List.length merged <= 15)%nat
  /\ (forall x, In x unique <-> In x activities)
  /\ (forall seen x later,
         activities = (seen ++ x :: later)%list -> ~ In x seen ->
         exists after, unique = (dict_fromkeys seen ++ x :: after)%list)
  /\ get_yesterday_github_activity pr_data issue_data fetch now username
     = inr (if is_empty activities then ""
            else "GitHub：" ++ nl ++ nl
                   ++ join nl (map (fun activity => "• " ++ activity) merged))
  /\ (activities = [] ->
      get_yesterday_github_activity pr_data issue_data fetch now username = inr "").
Proof.
  intros Hcollect unique merged.
  assert (Hblock : get_yesterday_github_activity pr_data issue_data fetch now username
                   = inr (render_activities activities)).
  { unfold get_yesterday_github_activity. now rewrite Hcollect. }
  split; [now apply collect_activities_inv |].
  split; [reflexivity |].
  split; [apply NoDup_firstn, dict_fromkeys_NoDup |].
  split; [apply firstn_le_length |].
  split; [intros x; apply dict_fromkeys_In |].
  split.
  - intros seen x later -> Hnew. now apply dict_fromkeys_first_occurrence.
  - split; [exact Hblock |]. intros ->. exact Hblock.
Qed.

Lemma activity_merger_dedups_in_order_witness :
  get_yesterday_github_activity (ApiOk [a_pull_request; a_pull_request])
                                (ApiError "API 请求失败: 403")
                                stale_first_page this_morning "coutureone"
  = inr ("GitHub：" ++ nl ++ nl ++ "• " ++ pr_line ++ nl ++ "• " ++ star_line).
Proof.
  destruct (activity_merger_dedups_in_order
              (ApiOk [a_pull_request; a_pull_request]) (ApiError "API 请求失败: 403")
              stale_first_page this_morning "coutureone"
              [pr_line; pr_line; star_line])
    as (_ & _ & _ & _ & _ & _ & Hblock & _).
  - vm_compute. reflexivity.
  - rewrite Hblock. vm_compute. reflexivity.
Defined.

(** ** The normalizers *)

Lemma catch_inr {A} (a : A) (h : pyexn -> py A) : catch (inr a : py A) h = inr a.
Proof. reflexivity. Qed.

Lemma catch_inl {A} (e : pyexn) (h : pyexn -> py A) : catch (inl e : py A) h = h e.
Proof. reflexivity. Qed.

Lemma bind_inr_inv {A B} (c : py A) (f : A -> py B) (b : B) :
  (x <- c ;; f x) = inr b -> exists a, c = inr a /\ f a = inr b.
Proof.
  destruct c as [e | a]; [discriminate |]. rewrite bind_inr. intros H. now exists a.
Qed.




















(** ** The selector *)

Lemma filter_py_pure {A} (p : A -> py bool) (q : A -> bool) (xs : list A) :
  Forall (fun x => p x = inr (q x)) xs ->
  filter_py p xs = inr (filter q xs).
Proof.
  induction 1 as [| x xs Hx _ IH]; [reflexivity |].
  cbn [filter_py filter]. rewrite Hx, bind_inr, IH, bind_inr, ret_inr. reflexivity.
Qed.

Lemma filter_py_inv {A} (p : A -> py bool) (xs l : list A) :
  filter_py p xs = inr l ->
  Forall (fun x => exists b, p x = inr b) xs /\ incl l xs.
Proof.
  revert l. induction xs as [| x xs IH]; intros l; cbn [filter_py].
  - intros [= <-]. split; [constructor | apply incl_refl].
  - intros H. apply bind_inr_inv in H. destruct H as (b & Hb & H).
    apply bind_inr_inv in H. destruct H as (ys & Hys & H).
    injection H as <-. destruct (IH ys Hys) as [Hall Hincl]. split.
    + constructor; eauto.
    + destruct b.
      * intros e [<- | He]; [now left | right; auto].
      * intros e He. right. auto.
Qed.

Lemma as_int_normalized (e : HistoricalEvent) :
  normalized e -> as_int (ev_year e) = inr (year_value e).
Proof. intros [y Hy]. unfold year_value. now rewrite Hy. Qed.

Lemma as_int_year_value (e : HistoricalEvent) (y : Z) :
  as_int (ev_year e) = inr y -> y = year_value e.
Proof.
  unfold year_value. destruct (ev_year e) as [| [|] | | | |]; simpl; congruence.
Qed.

Lemma filter_events_normalized (birth_year current_year : Z) (events : list HistoricalEvent) :
  Forall normalized events ->
  filter_events birth_year current_year events
  = inr (if is_empty (lifetime_events birth_year current_year events)
         then positive_events events
         else lifetime_events birth_year current_year events).
Proof.
  intros Hnorm. unfold filter_events.
  rewrite (filter_py_pure _ (fun e => (birth_year <=? year_value e)
                                        && (year_value e <=? current_year))).
  - rewrite bind_inr. fold (lifetime_events birth_year current_year events).
    destruct (is_empty (lifetime_events birth_year current_year events)); [| reflexivity].
    apply filter_py_pure.
    eapply Forall_impl; [| exact Hnorm]. intros e He.
    unfold positive_year. now rewrite (as_int_normalized e He), bind_inr.
  - eapply Forall_impl; [| exact Hnorm]. intros e He.
    unfold in_lifetime. now rewrite (as_int_normalized e He), bind_inr.
Qed.

Lemma random_choice_fallback (g : rng) :
  exists s, random_choice g FALLBACK_INTERESTING_FACTS = inr s
            /\ In s FALLBACK_INTERESTING_FACTS.
Proof.
  unfold random_choice.
  destruct (nth_error FALLBACK_INTERESTING_FACTS
                      (Nat.modulo (choice_draw g) (List.length FALLBACK_INTERESTING_FACTS)))
    as [s |] eqn:E.
  - exists s. split; [reflexivity | eapply nth_error_In; eassumption].
  - apply nth_error_None in E.
    pose proof (Nat.mod_upper_bound (choice_draw g)
                                    (List.length FALLBACK_INTERESTING_FACTS)) as Hlt.
    change (List.length FALLBACK_INTERESTING_FACTS) with 10%nat in *. lia.
Qed.

Section SelectorProperties.
Variable repr_container : json -> string.
Variable str_strip : string -> string.
Variable convert : string -> string.


(** *** Sampling and sorting *)

Lemma remove_nth_perm {A} (l : list A) (j : nat) (x : A) :
  nth_error l j = Some x ->
  Permutation l (x :: remove_nth j l)
  /\ S (List.length (remove_nth j l)) = List.length l.
Proof.
  revert j. induction l as [| a l IH]; intros [| j]; cbn [nth_error remove_nth];
    try discriminate.
  - intros [= ->]. split; [reflexivity | reflexivity].
  - intros H. destruct (IH j H) as [Hperm Hlen]. split.
    + rewrite perm_swap. now apply perm_skip.
    + cbn [List.length]. now rewrite Hlen.
Qed.

Lemma draw_sample {A} (f : nat -> nat) (k i : nat) (pool : list A) :
  (k <= List.length pool)%nat ->
  List.length (draw f i pool k) = k
  /\ exists rest, Permutation (draw f i pool k ++ rest) pool.
Proof.
  revert i pool. induction k as [| k IH]; intros i pool Hk; cbn [draw].
  - split; [reflexivity | now exists pool].
  - destruct (nth_error pool (Nat.modulo (f i) (List.length pool))) as [x |] eqn:E.
    + destruct (remove_nth_perm _ _ _ E) as [Hperm Hlen].
      destruct (IH (S i) (remove_nth (Nat.modulo (f i) (List.length pool)) pool))
        as [Hl (rest & Hrest)]; [lia |].
      split; [cbn [List.length]; now rewrite Hl |].
      exists rest. cbn [app]. symmetry. etransitivity; [exact Hperm |].
      apply perm_skip. now symmetry.
    + apply nth_error_None in E.
      pose proof (Nat.mod_upper_bound (f i) (List.length pool)). lia.
Qed.

Lemma insert_desc_perm {A} (x : Z * A) (l : list (Z * A)) :
  Permutation (insert_desc x l) (x :: l).
Proof.
  induction l as [| y l IH]; cbn [insert_desc]; [reflexivity |].
  destruct (fst x <? fst y); [| reflexivity].
  rewrite IH. apply perm_swap.
Qed.

Lemma sort_desc_perm {A} (l : list (Z * A)) : Permutation (sort_desc l) l.
Proof.
  induction l as [| x l IH]; cbn [sort_desc]; [reflexivity |].
  rewrite insert_desc_perm. now apply perm_skip.
Qed.

Lemma insert_desc_sorted {A} (x : Z * A) (l : list (Z * A)) :
  StronglySorted (fun a b => fst a >= fst b) l ->
  StronglySorted (fun a b => fst a >= fst b) (insert_desc x l).
Proof.
  induction 1 as [| y l Hsorted IH Hall]; cbn [insert_desc].
  - repeat constructor.
  - destruct (Z.ltb_spec (fst x) (fst y)) as [Hlt | Hge].
    + constructor; [assumption |].
      eapply Permutation_Forall; [symmetry; apply insert_desc_perm |].
      constructor; [lia | assumption].
    + constructor; [now constructor |].
      constructor; [lia |].
      eapply Forall_impl; [| exact Hall]. simpl. intros. lia.
Qed.

Lemma sort_desc_sorted {A} (l : list (Z * A)) :
  StronglySorted (fun a b => fst a >= fst b) (sort_desc l).
Proof.
  induction l as [| x l IH]; cbn [sort_desc]; [constructor |].
  now apply insert_desc_sorted.
Qed.

Lemma map_py_keyed (events : list HistoricalEvent) keyed :
  map_py (fun e => k <- as_int (ev_year e) ;; ret (k, e)) events = inr keyed ->
  keyed = keyed_by_year events.
Proof.
  revert keyed. induction events as [| e events IH]; intros keyed; cbn [map_py].
  - now intros [= <-].
  - intros H. apply bind_inr_inv in H. destruct H as (p & Hp & H).
    apply bind_inr_inv in H. destruct H as (ps & Hps & H). injection H as <-.
    apply bind_inr_inv in Hp. destruct Hp as (k & Hk & Hp). injection Hp as <-.
    apply as_int_year_value in Hk. subst k.
    now rewrite (IH ps Hps).
Qed.

Lemma map_py_keyed_int_years (events : list HistoricalEvent) :
  Forall int_year events ->
  map_py (fun e => k <- as_int (ev_year e) ;; ret (k, e)) events
  = inr (keyed_by_year events).
Proof.
  induction 1 as [| e events [y Hy] _ IH]; [reflexivity |].
  cbn [map_py]. rewrite Hy, !bind_inr, ret_inr, bind_inr, IH, bind_inr.
  now rewrite (as_int_year_value e y Hy).
Qed.

Lemma sort_by_year_desc_inv (events sorted : list HistoricalEvent) :
  sort_by_year_desc events = inr sorted -> sorted = sorted_by_year events.
Proof.
  unfold sort_by_year_desc. intros H.
  apply bind_inr_inv in H. destruct H as (keyed & Hkeyed & H). injection H as <-.
  now rewrite (map_py_keyed _ _ Hkeyed).
Qed.

Lemma sort_by_year_desc_int_years (events : list HistoricalEvent) :
  Forall int_year events -> sort_by_year_desc events = inr (sorted_by_year events).
Proof.
  intros H. unfold sort_by_year_desc.
  now rewrite (map_py_keyed_int_years events H), bind_inr.
Qed.

Lemma sorted_by_year_perm (events : list HistoricalEvent) :
  Permutation (sorted_by_year events) events.
Proof.
  unfold sorted_by_year.
  rewrite (Permutation_map snd (sort_desc_perm (keyed_by_year events))).
  unfold keyed_by_year. rewrite map_map. cbn [snd]. now rewrite map_id.
Qed.

Lemma sorted_by_year_sorted (events : list HistoricalEvent) :
  StronglySorted (fun a b => year_value a >= year_value b) (sorted_by_year events).
Proof.
  unfold sorted_by_year.
  assert (Hkeys : Forall (fun p => fst p = year_value (snd p))
                         (sort_desc (keyed_by_year events))).
  { eapply Permutation_Forall; [symmetry; apply sort_desc_perm |].
    unfold keyed_by_year. apply Forall_map. apply Forall_forall. reflexivity. }
  pose proof (sort_desc_sorted (keyed_by_year events)) as Hsorted.
  induction Hsorted as [| p l Hl IH Hall]; cbn [map]; [constructor |].
  inversion Hkeys as [| p' l' Hp Hrest]; subst.
  constructor; [now apply IH |].
  apply Forall_map. rewrite Forall_forall in *.
  intros q Hq. rewrite <- Hp, <- (Hrest q Hq). now apply Hall.
Qed.

Lemma filter_events_inv (birth_year current_year : Z) (events filtered : list HistoricalEvent) :
  filter_events birth_year current_year events = inr filtered ->
  Forall int_year events /\ incl filtered events.
Proof.
  unfold filter_events. intros H.
  apply bind_inr_inv in H. destruct H as (first & Hfirst & H).
  destruct (filter_py_inv _ _ _ Hfirst) as [Hall Hincl]. split.
  - eapply Forall_impl; [| exact Hall]. intros e [b Hb]. unfold in_lifetime in Hb.
    apply bind_inr_inv in Hb. destruct Hb as (y & Hy & _). now exists y.
  - destruct (is_empty first).
    + now apply filter_py_inv in H.
    + now injection H as <-.
Qed.

Lemma incl_Forall_in {A} (P : A -> Prop) (l l' : list A) :
  incl l l' -> Forall P l' -> Forall P l.
Proof. intros Hincl H. rewrite Forall_forall in *. auto. Qed.

Lemma random_sample_inv {A} (g : rng) (population sample : list A) (k : Z) :
  random_sample g population k = inr sample ->
  0 <= k <= Z.of_nat (List.length population)
  /\ Z.of_nat (List.length sample) = k
  /\ exists rest, Permutation (sample ++ rest) population.
Proof.
  unfold random_sample.
  destruct (Z.ltb_spec k 0); [discriminate |].
  destruct (Z.ltb_spec (Z.of_nat (List.length population)) k); [discriminate |].
  cbn [orb]. intros [= <-].
  destruct (draw_sample (sample_draw g) (Z.to_nat k) 0 population) as [Hlen Hperm]; [lia |].
  split; [lia |]. split; [lia | exact Hperm].
Qed.

Lemma random_sample_returns {A} (g : rng) (population : list A) (k : Z) :
  0 <= k <= Z.of_nat (List.length population) ->
  exists sample, random_sample g population k = inr sample.
Proof.
  intros Hk. unfold random_sample.
  destruct (Z.ltb_spec k 0); [lia |].
  destruct (Z.ltb_spec (Z.of_nat (List.length population)) k); [lia |].
  cbn [orb]. rewrite ret_inr. eexists. reflexivity.
Qed.

Lemma select_events_inv (g : rng) (limit : Z) (filtered selected : list HistoricalEvent) :
  select_events g limit filtered = inr selected ->
  Z.of_nat (List.length selected) = Z.min limit (Z.of_nat (List.length filtered))
  /\ (exists rest, Permutation (selected ++ rest) filtered)
  /\ StronglySorted (fun a b => year_value a >= year_value b) selected.
Proof.
  unfold select_events. intros H.
  apply bind_inr_inv in H. destruct H as (sample & Hsample & H).
  apply sort_by_year_desc_inv in H. subst selected.
  apply random_sample_inv in Hsample. destruct Hsample as (_ & Hlen & rest & Hperm).
  pose proof (sorted_by_year_perm sample) as Hsorted. split; [| split].
  - now rewrite (Permutation_length Hsorted).
  - exists rest. now rewrite Hsorted.
  - apply sorted_by_year_sorted.
Qed.

Lemma select_events_returns (g : rng) (limit : Z) (filtered : list HistoricalEvent) :
  0 <= limit -> Forall int_year filtered ->
  exists selected, select_events g limit filtered = inr selected.
Proof.
  intros Hlimit Hyears. unfold select_events.
  destruct (random_sample_returns g filtered
              (Z.min limit (Z.of_nat (List.length filtered)))) as [sample Hsample]; [lia |].
  rewrite Hsample, bind_inr.
  exists (sorted_by_year sample). apply sort_by_year_desc_int_years.
  apply random_sample_inv in Hsample. destruct Hsample as (_ & _ & rest & Hperm).
  apply (incl_Forall_in _ _ filtered); [| assumption].
  intros e He. apply (Permutation_in _ Hperm). apply in_or_app. now left.
Qed.


(** C6: on a normalized event list the selector keeps exactly the events
    with [birth_year <= year <= current_year], in their order; when there
    is none it keeps exactly the events with [year > 0]; when there is none
    either the result is one of the filler statements; otherwise the
    events it samples, sorts and renders are all taken from the kept
    ones. *)
Theorem selector_filters_then_relaxes
        (g : rng) (birth_year limit current_year : Z) (events : list HistoricalEvent) :
  Forall normalized events ->
  let kept := if is_empty (lifetime_events birth_year current_year events)
              then positive_events events
              else lifetime_events birth_year current_year events in
  filter_events birth_year current_year events = inr kept
  /\ (forall e, In e (lifetime_events birth_year current_year events)
                <-> In e events /\ birth_year <= year_value e <= current_year)
  /\ (forall e, In e (positive_events events) <-> In e events /\ 0 < year_value e)
  /\ (lifetime_events birth_year current_year events = [] ->
      positive_events events = [] ->
      exists s,
        select_and_render repr_container str_strip convert g birth_year limit
                          current_year events = inr s
        /\ In s FALLBACK_INTERESTING_FACTS)
  /\ (kept <> [] -> 0 <= limit ->
      exists selected,
        select_events g limit kept = inr selected
        /\ incl selected kept
        /\ Z.of_nat (List.length selected) = Z.min limit (Z.of_nat (List.length kept))
        /\ select_and_render repr_container str_strip convert g birth_year limit
                             current_year events
           = (result_lines <- map_py (render_event repr_container str_strip convert
                                                   birth_year) selected ;;
              ret (history_header ++ join nl result_lines))).
Proof.
  intros Hnorm kept.
  pose proof (filter_events_normalized birth_year current_year events Hnorm) as Hfilter.
  fold kept in Hfilter.
  split; [exact Hfilter |].
  split.
  { intros e. unfold lifetime_events. rewrite filter_In, andb_true_iff, !Z.leb_le. tauto. }
  split.
  { intros e. unfold positive_events. rewrite filter_In, Z.ltb_lt. tauto. }
  split.
  { intros Hlife Hpos. unfold select_and_render.
    destruct (is_empty events); [apply random_choice_fallback |].
    rewrite Hfilter, bind_inr. subst kept. rewrite Hlife. cbn [is_empty].
    rewrite Hpos. cbn [is_empty]. apply random_choice_fallback. }
  intros Hkept Hlimit.
  destruct (filter_events_inv _ _ _ _ Hfilter) as [Hyears Hincl].
  destruct (select_events_returns g limit kept Hlimit) as [selected Hselect].
  { now apply (incl_Forall_in _ _ events). }
  destruct (select_events_inv _ _ _ _ Hselect) as (Hlen & (rest & Hperm) & _).
  exists selected. split; [exact Hselect |]. split.
  { intros e He. apply (Permutation_in _ Hperm). apply in_or_app. now left. }
  split; [exact Hlen |].
  unfold select_and_render.
  destruct events as [| e events].
  { destruct kept as [| k kept']; [congruence | destruct (Hincl k); now left]. }
  cbn [is_empty]. rewrite Hfilter, bind_inr.
  destruct kept as [| k kept'] eqn:Hk; [congruence |].
  cbn [is_empty]. rewrite Hselect, bind_inr. reflexivity.
Qed.

(** *** The fallback chain and the guard *)

Lemma select_and_render_cases
      (g : rng) (birth_year limit current_year : Z) (events : list HistoricalEvent) (s : string) :
  select_and_render repr_container str_strip convert g birth_year limit current_year events
  = inr s ->
  In s FALLBACK_INTERESTING_FACTS
  \/ exists selected result_lines,
       incl selected events
       /\ map_py (render_event repr_container str_strip convert birth_year) selected
          = inr result_lines
       /\ s = history_header ++ join nl result_lines.
Proof.
  unfold select_and_render.
  destruct (random_choice_fallback g) as (filler & Hchoice & Hfiller).
  destruct (is_empty events); [rewrite Hchoice; intros [= <-]; now left |].
  destruct (filter_events birth_year current_year events) as [e | filtered] eqn:Hfilter;
    [discriminate |].
  rewrite bind_inr.
  destruct (is_empty filtered); [rewrite Hchoice; intros [= <-]; now left |].
  destruct (select_events g limit filtered) as [e | selected] eqn:Hselect; [discriminate |].
  rewrite bind_inr.
  destruct (map_py _ selected) as [e | result_lines] eqn:Hlines; [discriminate |].
  rewrite bind_inr. intros [= <-]. right. exists selected, result_lines.
  split; [| split; [assumption | reflexivity]].
  apply filter_events_inv in Hfilter. destruct Hfilter as [_ Hincl].
  apply select_events_inv in Hselect. destruct Hselect as (_ & (rest & Hperm) & _).
  intros x Hx. apply Hincl. apply (Permutation_in _ Hperm). apply in_or_app. now left.
Qed.

Lemma fetch_events_cases (wikimedia baidu : http_response) (now : Z)
      (primary secondary : list HistoricalEvent) :
  get_history_today_from_wikimedia wikimedia now = inr primary ->
  get_history_today_from_baidu baidu now = inr secondary ->
  fetch_events wikimedia baidu now = inr (if is_empty primary then secondary else primary).
Proof.
  intros Hp Hs. unfold fetch_events. rewrite Hp, bind_inr.
  destruct (is_empty primary); [exact Hs | reflexivity].
Qed.

Lemma get_history_today_returns
      (g : rng) (wikimedia baidu : http_response) (now birth_year limit : Z) :
  exists s,
    get_history_today repr_container str_strip convert g wikimedia baidu now
                      birth_year limit = inr s
    /\ (raises (get_history_today_body repr_container str_strip convert g wikimedia
                                       baidu now birth_year limit) ->
        In s FALLBACK_INTERESTING_FACTS)
    /\ (forall s',
           get_history_today_body repr_container str_strip convert g wikimedia baidu
                                  now birth_year limit = inr s' -> s = s').
Proof.
  unfold get_history_today.
  destruct (random_choice_fallback g) as (filler & Hchoice & Hfiller).
  destruct (get_history_today_body _ _ _ g wikimedia baidu now birth_year limit)
    as [e | s].
  - rewrite catch_inl. exists filler. split; [assumption |]. split; [auto | discriminate].
  - rewrite catch_inr. exists s. split; [reflexivity |]. split.
    + intros [e He]. discriminate.
    + now intros s' [= <-].
Qed.

(** C7: when the primary provider (Wikimedia) gives no event and the
    secondary one (Baidu) gives some, the selector works on the list of the
    secondary provider alone, and every event it renders comes from that
    list. *)
Theorem selector_falls_back_to_secondary
        (g : rng) (wikimedia baidu : http_response) (now birth_year limit : Z)
        (secondary : list HistoricalEvent) :
  get_history_today_from_wikimedia wikimedia now = inr [] ->
  get_history_today_from_baidu baidu now = inr secondary ->
  secondary <> [] ->
  fetch_events wikimedia baidu now = inr secondary
  /\ exists s,
       get_history_today repr_container str_strip convert g wikimedia baidu now
                         birth_year limit = inr s
       /\ (In s FALLBACK_INTERESTING_FACTS
           \/ exists selected result_lines,
                incl selected secondary
                /\ map_py (render_event repr_container str_strip convert birth_year)
                          selected = inr result_lines
                /\ s = history_header ++ join nl result_lines).
Proof.
  intros Hprimary Hsecondary Hne.
  pose proof (fetch_events_cases _ _ _ _ _ Hprimary Hsecondary) as Hfetch.
  cbn [is_empty] in Hfetch. split; [exact Hfetch |].
  destruct (get_history_today_returns g wikimedia baidu now birth_year limit)
    as (s & Hs & Hraise & Hbody).
  exists s. split; [exact Hs |].
  destruct (get_history_today_body _ _ _ g wikimedia baidu now birth_year limit)
    as [e | s'] eqn:Hb.
  - left. apply Hraise. now exists e.
  - rewrite (Hbody s' eq_refl). unfold get_history_today_body in Hb.
    rewrite Hfetch, bind_inr in Hb. now apply select_and_render_cases in Hb.
Qed.

(** C8: whatever the providers answer, and whatever raises on the way,
    [get_history_today] returns a string; when its body raised, the string
    is one of the filler statements; otherwise it is a filler statement or
    the rendering of the selected events. *)
Theorem get_history_today_never_raises
        (g : rng) (wikimedia baidu : http_response) (now birth_year limit : Z) :
  exists s,
    get_history_today repr_container str_strip convert g wikimedia baidu now
                      birth_year limit = inr s
    /\ (raises (get_history_today_body repr_container str_strip convert g wikimedia
                                       baidu now birth_year limit) ->
        In s FALLBACK_INTERESTING_FACTS)
    /\ (In s FALLBACK_INTERESTING_FACTS
        \/ exists selected result_lines,
             map_py (render_event repr_container str_strip convert birth_year) selected
             = inr result_lines
             /\ s = history_header ++ join nl result_lines).
Proof.
  destruct (get_history_today_returns g wikimedia baidu now birth_year limit)
    as (s & Hs & Hraise & Hbody).
  exists s. split; [exact Hs |]. split; [exact Hraise |].
  destruct (get_history_today_body _ _ _ g wikimedia baidu now birth_year limit)
    as [e | s'] eqn:Hb.
  - left. apply Hraise. now exists e.
  - rewrite (Hbody s' eq_refl). unfold get_history_today_body in Hb.
    apply bind_inr_inv in Hb. destruct Hb as (events & _ & Hb).
    apply select_and_render_cases in Hb.
    destruct Hb as [Hf | (selected & result_lines & _ & Hl & Heq)]; [now left |].
    right. now exists selected, result_lines.
Qed.

End SelectorProperties.

Lemma selector_filters_then_relaxes_witness :
  Forall normalized four_events
  /\ filter_events 1999 2025 four_events
     = inr [event_of 2001 "W1"; event_of 2010 "ten"; event_of 2005 "five"]
  /\ select_and_render no_repr as_is as_is ones 1999 3 2025 four_events
     = (result_lines <- map_py (render_event no_repr as_is as_is 1999)
                               [event_of 2010 "ten"; event_of 2005 "five";
                                event_of 2001 "W1"] ;;
        ret (history_header ++ join nl result_lines))
  /\ exists s,
       select_and_render no_repr as_is as_is ones 1999 3 2025 ancient_events
       = inr s
       /\ In s FALLBACK_INTERESTING_FACTS.
Proof.
  assert (Hfour : Forall normalized four_events)
    by (repeat constructor; eexists; reflexivity).
  assert (Hancient : Forall normalized ancient_events)
    by (repeat constructor; eexists; reflexivity).
  split; [exact Hfour |].
  destruct (selector_filters_then_relaxes no_repr as_is as_is ones 1999 3 2025
              four_events Hfour) as (Hfilter & _ & _ & _ & Hkept).
  split; [exact Hfilter |]. split.
  - destruct Hkept as (selected & Hselect & _ & _ & Hrender); [discriminate | lia |].
    rewrite Hrender. revert Hselect. vm_compute. now intros [= <-].
  - destruct (selector_filters_then_relaxes no_repr as_is as_is ones 1999 3 2025
                ancient_events Hancient) as (_ & _ & _ & H & _).
    apply H; reflexivity.
Defined.



Lemma selector_falls_back_to_secondary_witness :
  get_history_today_from_wikimedia ConnectionFailed this_morning = inr []
  /\ fetch_events ConnectionFailed baidu_one this_morning
     = inr [ {| ev_year := JNum 1999; ev_text := JStr "Event A"; ev_wiki_url := None |} ]
  /\ get_history_today no_repr as_is as_is ones ConnectionFailed baidu_one this_morning
                       1999 3
     = inr (history_header ++ "• **1999年**：Event A （那年我 0 岁）  ").
Proof.
  assert (Hprimary : get_history_today_from_wikimedia ConnectionFailed this_morning = inr [])
    by reflexivity.
  assert (Hsecondary :
            get_history_today_from_baidu baidu_one this_morning
            = inr [ {| ev_year := JNum 1999; ev_text := JStr "Event A";
                       ev_wiki_url := None |} ])
    by (vm_compute; reflexivity).
  destruct (selector_falls_back_to_secondary no_repr as_is as_is ones ConnectionFailed
              baidu_one this_morning 1999 3 _ Hprimary Hsecondary) as [Hfetch _];
    [discriminate |].
  split; [exact Hprimary |]. split; [exact Hfetch |]. vm_compute. reflexivity.
Defined.

(** ** The dispatch *)

Lemma passes_gate_keeps_world (faults : Faults) (clock : Clock) (w : World) :
  passes_gate faults clock w = true ->
  login_raises faults = false
  /\ find_or_create_issue faults w = Some w
  /\ get_comments_raises faults = false
  /\ truthy (get_today_get_up_status
               (match tracking_issue w with Some cs => cs | None => [] end)
               (t_gate clock)) = false.
Proof.
  unfold passes_gate, find_or_create_issue.
  destruct (login_raises faults); [discriminate |].
  cbn [negb andb]. intros H. split; [reflexivity |]. revert H.
  destruct (get_issues_raises faults).
  - destruct (create_issue_raises faults); [discriminate |].
    cbn [tracking_issue]. rewrite andb_true_iff. intros [_ H]. discriminate H.
  - destruct (tracking_issue w) as [cs |] eqn:Hissue.
    + rewrite Hissue, andb_true_iff, !negb_true_iff. tauto.
    + destruct (create_issue_raises faults); [discriminate |].
      cbn [tracking_issue]. rewrite andb_true_iff. intros [_ H]. discriminate H.
Qed.

Section MainProperties.
Variable format_1f : float -> string.
Variable repr_container : json -> string.
Variable str_strip : string -> string.
Variable convert : string -> string.
Variable markdownify : string -> string.
Variable username : string.

Lemma make_get_up_message_early (feeds : Feeds) (now : Z) (m : Message) :
  make_get_up_message format_1f repr_container str_strip convert username feeds now
  = inr m ->
  is_get_up_early m
  = (3 <=? hour (in_timezone now)) && (hour (in_timezone now) <=? 9).
Proof.
  unfold make_get_up_message. intros H.
  apply bind_inr_inv in H. destruct H as (yp & _ & H).
  apply bind_inr_inv in H. destruct H as (ga & _ & H).
  apply bind_inr_inv in H. destruct H as (ht & _ & H).
  now injection H as <-.
Qed.

(** C10: in a run that gets past the idempotency gate, the digest goes out
    and a comment is recorded only when the hour read on the Shanghai clock
    is between 3 and 9 inclusive; at any other hour nothing is sent, no
    comment is created and the tracking issue is left as it was. *)
Theorem dispatch_only_when_early
        (opts : Options) (faults : Faults) (clock : Clock) (feeds : Feeds) (w : World) :
  passes_gate faults clock w = true ->
  let run := main format_1f repr_container str_strip convert markdownify username
                  opts faults clock feeds w in
  let h := hour (in_timezone (t_message clock)) in
  (~ (3 <= h <= 9) -> fst run = w)
  /\ (tracking_issue (fst run) <> tracking_issue w
      \/ telegram_sent (fst run) <> telegram_sent w
      \/ dingtalk_sent (fst run) <> dingtalk_sent w ->
      3 <= h <= 9).
Proof.
  intros Hgate run h.
  destruct (passes_gate_keeps_world _ _ _ Hgate) as (Hlogin & Hfind & Hcomments & Hfalse).
  assert (Hlate : ~ (3 <= h <= 9) -> fst run = w).
  { intros Hh. subst run. unfold main. rewrite Hlogin, Hfind, Hcomments, Hfalse.
    destruct (make_get_up_message _ _ _ _ _ feeds (t_message clock)) as [e | m] eqn:Hm;
      [reflexivity |].
    rewrite (make_get_up_message_early _ _ _ Hm). fold h.
    destruct (Z.leb_spec 3 h); [| reflexivity].
    destruct (Z.leb_spec h 9); [lia | reflexivity]. }
  split; [exact Hlate |].
  intros Hchanged.
  destruct (Z.le_gt_cases 3 h); [| rewrite Hlate in Hchanged by lia; tauto].
  destruct (Z.le_gt_cases h 9); [lia | rewrite Hlate in Hchanged by lia; tauto].
Qed.

End MainProperties.

Lemma dispatch_only_when_early_witness :
  passes_gate no_faults late_clock yesterday_logged = true
  /\ fst (main (fun _ => "") no_repr as_is as_is as_is "coutureone"
               all_channels no_faults late_clock quiet_feeds yesterday_logged)
     = yesterday_logged
  /\ tracking_issue
       (fst (main (fun _ => "") no_repr as_is as_is as_is "coutureone"
                  all_channels no_faults early_clock quiet_feeds yesterday_logged))
     <> tracking_issue yesterday_logged.
Proof.
  assert (Hgate : passes_gate no_faults late_clock yesterday_logged = true)
    by (vm_compute; reflexivity).
  split; [exact Hgate |]. split.
  - destruct (dispatch_only_when_early (fun _ => "") no_repr as_is as_is as_is
                "coutureone" all_channels no_faults late_clock quiet_feeds
                yesterday_logged Hgate) as [Hlate _].
    apply Hlate. vm_compute. intros [_ H]. now apply H.
  - vm_compute. discriminate.
Defined.

(** ** More on the gate and the dispatch *)

Lemma same_day_same_date (t1 t2 : Z) :
  start_of_day t1 = start_of_day t2 ->
  year (in_timezone t1) = year (in_timezone t2)
  /\ month (in_timezone t1) = month (in_timezone t2)
  /\ day (in_timezone t1) = day (in_timezone t2)
  /\ day_of_year (in_timezone t1) = day_of_year (in_timezone t2).
Proof.
  unfold start_of_day, in_timezone. intros H.
  assert (Hdays : (t1 + utc_offset) / usec_per_day = (t2 + utc_offset) / usec_per_day).
  { unfold usec_per_day, usec_per_sec in *. lia. }
  rewrite Hdays.
  destruct (civil_from_days ((t2 + utc_offset) / usec_per_day)) as [[y m] d].
  cbn [year month day day_of_year]. auto.
Qed.

Lemma gate_closed_on_same_day_aux (older : list IssueComment) (latest : IssueComment)
      (now : Z) :
  start_of_day (created_at latest) = start_of_day now ->
  get_today_get_up_status (older ++ [latest])%list now = PyBool true.
Proof.
  intros Hday. destruct (same_day_same_date _ _ Hday) as (_ & Hm & Hd & _).
  unfold get_today_get_up_status.
  destruct (older ++ [latest])%list as [| c rest] eqn:E;
    [destruct older; discriminate |].
  assert (Hlast : last rest c = latest).
  { destruct older as [| c' older'].
    - injection E as <- <-. reflexivity.
    - injection E as <- <-. apply last_last. }
  cbv zeta. rewrite Hlast, Hm, Hd, !Z.eqb_refl. reflexivity.
Qed.

(** X1: when the latest comment was created on the same Shanghai calendar
    day as now, the gate answers [True], whatever the older comments are. *)
Theorem gate_closed_on_same_day (older : list IssueComment) (latest : IssueComment) (now : Z) :
  start_of_day (created_at latest) = start_of_day now ->
  get_today_get_up_status (older ++ [latest])%list now = PyBool true
  /\ truthy (get_today_get_up_status (older ++ [latest])%list now) = true.
Proof.
  intros Hday. rewrite (gate_closed_on_same_day_aux older latest now Hday). now split.
Qed.

Section MoreMainProperties.
Variable format_1f : float -> string.
Variable repr_container : json -> string.
Variable str_strip : string -> string.
Variable convert : string -> string.
Variable markdownify : string -> string.
Variable username : string.

Lemma dispatch_spec (opts : Options) (faults : Faults) (clock : Clock) (body : string)
      (w : World) :
  tele_token opts = "" \/ tele_chat_id opts = "" \/ telebot_raises faults = false ->
  create_comment_raises faults = false ->
  let w' := fst (dispatch markdownify opts faults clock body w) in
  snd (dispatch markdownify opts faults clock body w) = Returned
  /\ tracking_issue w'
     = Some ((match tracking_issue w with Some cs => cs | None => [] end)
               ++ [mkComment (t_comment clock) (remove_github_links body)])%list
  /\ (dingtalk_webhook opts <> "" -> dingtalk_fails faults = false ->
      dingtalk_sent w' = (dingtalk_sent w ++ [body])%list)
  /\ (dingtalk_webhook opts = "" \/ dingtalk_fails faults = true ->
      dingtalk_sent w' = dingtalk_sent w)
  /\ (tele_token opts = "" \/ tele_chat_id opts = "" \/ send_message_raises faults = true ->
      telegram_sent w' = telegram_sent w).
Proof.
  intros Hbot Hcreate. unfold dispatch. cbv zeta.
  assert (Hbuilt : nonempty (tele_token opts) && nonempty (tele_chat_id opts)
                   && telebot_raises faults = false).
  { unfold nonempty. destruct Hbot as [-> | [-> | ->]];
      cbn [String.eqb negb andb]; rewrite ?andb_false_r; reflexivity. }
  rewrite Hbuilt, Hcreate. clear Hbuilt Hbot. cbn [fst snd].
  split; [reflexivity |]. split.
  { destruct (nonempty (dingtalk_webhook opts) && _)%bool, (_ && _ && _)%bool;
      cbn [tracking_issue]; destruct (tracking_issue w); reflexivity. }
  unfold nonempty.
  split.
  { intros Hne ->. apply String.eqb_neq in Hne. rewrite Hne. cbn [negb andb].
    destruct (_ && _ && _)%bool; reflexivity. }
  split.
  { intros [-> | ->]; cbn [String.eqb negb andb]; rewrite ?andb_false_r;
      destruct (_ && _ && _)%bool; reflexivity. }
  intros [-> | [-> | ->]]; cbn [String.eqb negb andb]; rewrite ?andb_false_r;
    cbn [andb]; destruct (_ && _)%bool; reflexivity.
Qed.

Lemma dispatch_bot_rejected (opts : Options) (faults : Faults) (clock : Clock)
      (body : string) (w : World) :
  tele_token opts <> "" -> tele_chat_id opts <> "" -> telebot_raises faults = true ->
  dispatch markdownify opts faults clock body w = (w, Raised ValueError).
Proof.
  intros Htoken Hchat Hbot. unfold dispatch, nonempty. cbv zeta.
  apply String.eqb_neq in Htoken, Hchat. rewrite Htoken, Hchat, Hbot. reflexivity.
Qed.

(** X2: in the dispatch, when the bot is built (or Telegram is not
    configured) and [issue.create_comment] does not raise, the dispatch
    returns and the comment with the body cleaned of its GitHub links is
    appended to the tracking issue, whether or not the Telegram send or the
    DingTalk post failed; DingTalk gets the body exactly when a webhook is
    configured and its post goes through; Telegram gets nothing when its
    token or chat id is missing or its send raised.  When Telegram is
    configured and the constructor of the bot raises, the run ends with
    that exception: nothing is sent and no comment is recorded. *)
Theorem comment_recorded_unless_bot_rejected
        (opts : Options) (faults : Faults) (clock : Clock) (body : string) (w : World) :
  (tele_token opts = "" \/ tele_chat_id opts = "" \/ telebot_raises faults = false ->
   create_comment_raises faults = false ->
   let w' := fst (dispatch markdownify opts faults clock body w) in
   snd (dispatch markdownify opts faults clock body w) = Returned
   /\ tracking_issue w'
      = Some ((match tracking_issue w with Some cs => cs | None => [] end)
                ++ [mkComment (t_comment clock) (remove_github_links body)])%list
   /\ (dingtalk_webhook opts <> "" -> dingtalk_fails faults = false ->
       dingtalk_sent w' = (dingtalk_sent w ++ [body])%list)
   /\ (dingtalk_webhook opts = "" \/ dingtalk_fails faults = true ->
       dingtalk_sent w' = dingtalk_sent w)
   /\ (tele_token opts = "" \/ tele_chat_id opts = ""
       \/ send_message_raises faults = true ->
       telegram_sent w' = telegram_sent w))
  /\ (tele_token opts <> "" -> tele_chat_id opts <> "" -> telebot_raises faults = true ->
      dispatch markdownify opts faults clock body w = (w, Raised ValueError)).
Proof.
  split.
  - exact (dispatch_spec opts faults clock body w).
  - exact (dispatch_bot_rejected opts faults clock body w).
Qed.

Lemma main_records_comment (opts : Options) (faults : Faults) (clock : Clock)
      (feeds : Feeds) (w : World) :
  passes_gate faults clock w = true ->
  let w' := fst (main format_1f repr_container str_strip convert markdownify username
                      opts faults clock feeds w) in
  tracking_issue w' <> tracking_issue w ->
  exists cs body, tracking_issue w' = Some (cs ++ [mkComment (t_comment clock) body])%list.
Proof.
  intros Hgate w' Hchanged.
  destruct (passes_gate_keeps_world _ _ _ Hgate) as (Hlogin & Hfind & Hcomments & Hfalse).
  subst w'. revert Hchanged. unfold main. rewrite Hlogin, Hfind, Hcomments, Hfalse.
  destruct (make_get_up_message _ _ _ _ _ feeds (t_message clock)) as [e | m];
    [cbn [fst]; congruence |].
  destruct (is_get_up_early m); [| cbn [fst]; congruence].
  set (body := format_body _ m).
  destruct (nonempty (tele_token opts) && nonempty (tele_chat_id opts)
            && telebot_raises faults) eqn:Hbuilt.
  { unfold dispatch. cbv zeta. rewrite Hbuilt. cbn [fst]. congruence. }
  destruct (create_comment_raises faults) eqn:Hcreate.
  - unfold dispatch. cbv zeta. rewrite Hbuilt, Hcreate. clear Hbuilt. cbn [fst].
    destruct (nonempty (dingtalk_webhook opts) && _)%bool, (_ && _ && _)%bool;
      cbn [tracking_issue]; congruence.
  - assert (Hbot : tele_token opts = "" \/ tele_chat_id opts = ""
                   \/ telebot_raises faults = false).
    { unfold nonempty in Hbuilt.
      destruct (String.eqb_spec (tele_token opts) ""); [now left |].
      destruct (String.eqb_spec (tele_chat_id opts) ""); [now right; left |].
      cbn [negb andb] in Hbuilt. now right; right. }
    destruct (dispatch_spec opts faults clock body w Hbot Hcreate) as (_ & Hrec & _).
    intros _. eauto.
Qed.

(** X3: after a run that recorded a comment, a second run that reaches
    the repository and whose gate reads the clock on the same Shanghai day
    as that comment was created returns at the gate and leaves the issue
    and both channels as they are. *)
Theorem second_run_same_day_is_idle
        (opts1 opts2 : Options) (faults1 faults2 : Faults) (clock1 clock2 : Clock)
        (feeds1 feeds2 : Feeds) (w : World) :
  passes_gate faults1 clock1 w = true ->
  let w1 := fst (main format_1f repr_container str_strip convert markdownify username
                      opts1 faults1 clock1 feeds1 w) in
  tracking_issue w1 <> tracking_issue w ->
  login_raises faults2 = false ->
  get_issues_raises faults2 = false ->
  get_comments_raises faults2 = false ->
  start_of_day (t_comment clock1) = start_of_day (t_gate clock2) ->
  main format_1f repr_container str_strip convert markdownify username
       opts2 faults2 clock2 feeds2 w1 = (w1, Returned).
Proof.
  intros Hgate w1 Hchanged Hlogin Hissues Hcomments Hday.
  destruct (main_records_comment opts1 faults1 clock1 feeds1 w Hgate Hchanged)
    as (cs & body & Hrec).
  fold w1 in Hrec. unfold main, find_or_create_issue.
  rewrite Hlogin, Hissues, Hrec. cbv beta iota. rewrite Hcomments, Hrec.
  rewrite (gate_closed_on_same_day_aux cs (mkComment (t_comment clock1) body)
                                       (t_gate clock2) Hday).
  reflexivity.
Qed.

(** X4: [is_get_up_early] holds exactly when the Shanghai time of day is
    in the seven hours from 03:00:00 up to, but excluding, 10:00:00. *)
Theorem early_window_is_three_to_ten (feeds : Feeds) (now : Z) (m : Message) :
  make_get_up_message format_1f repr_container str_strip convert username feeds now
  = inr m ->
  (is_get_up_early m = true
   <-> 3 * 3600 * usec_per_sec <= (now + utc_offset) mod usec_per_day
       < 10 * 3600 * usec_per_sec).
Proof.
  clear markdownify. intros Hm. rewrite (make_get_up_message_early _ _ _ _ _ _ _ _ Hm).
  unfold in_timezone.
  destruct (civil_from_days ((now + utc_offset) / usec_per_day)) as [[y mo] d].
  cbn [hour]. rewrite andb_true_iff, !Z.leb_le.
  pose proof (Z.mod_pos_bound (now + utc_offset) usec_per_day eq_refl) as Hbound.
  set (x := (now + utc_offset) mod usec_per_day) in *. clearbody x.
  unfold usec_per_day, usec_per_sec in *.
  Z.div_mod_to_equations. lia.
Qed.

End MoreMainProperties.

Lemma gate_closed_on_same_day_witness :
  start_of_day (created_at (mkComment (this_morning - 3600 * 1000000) "GET UP"))
  = start_of_day this_morning
  /\ truthy (get_today_get_up_status
               ([mkComment a_year_ago "GET UP"]
                  ++ [mkComment (this_morning - 3600 * 1000000) "GET UP"])%list
               this_morning) = true.
Proof.
  assert (Hday : start_of_day (created_at (mkComment (this_morning - 3600 * 1000000)
                                                      "GET UP"))
                 = start_of_day this_morning) by reflexivity.
  split; [exact Hday |].
  exact (proj2 (gate_closed_on_same_day [mkComment a_year_ago "GET UP"] _ _ Hday)).
Defined.

Lemma comment_recorded_unless_bot_rejected_witness :
  fst (dispatch as_is all_channels telegram_down early_clock
                "[digest](https://github.com/coutureone/2026)" yesterday_logged)
  = {| tracking_issue := Some [mkComment window_start "GET UP";
                               mkComment this_morning "digest"];
       telegram_sent := [];
       dingtalk_sent := ["[digest](https://github.com/coutureone/2026)"] |}
  /\ dispatch as_is malformed_token bot_rejected early_clock
              "[digest](https://github.com/coutureone/2026)" yesterday_logged
     = (yesterday_logged, Raised ValueError).
Proof.
  destruct (comment_recorded_unless_bot_rejected as_is all_channels telegram_down
              early_clock "[digest](https://github.com/coutureone/2026)"
              yesterday_logged) as [Hsent _].
  destruct (Hsent (or_intror (or_intror eq_refl)) eq_refl) as (_ & Hrec & _).
  clear Hsent Hrec. split; [vm_compute; reflexivity |].
  apply (comment_recorded_unless_bot_rejected as_is malformed_token bot_rejected
           early_clock "[digest](https://github.com/coutureone/2026)" yesterday_logged);
    [discriminate | discriminate | reflexivity].
Defined.

Lemma second_run_same_day_is_idle_witness :
  passes_gate no_faults early_clock yesterday_logged = true
  /\ start_of_day (t_comment early_clock) = start_of_day (t_gate late_clock)
  /\ let w1 := fst (main (fun _ => "") no_repr as_is as_is as_is "coutureone"
                         all_channels no_faults early_clock quiet_feeds yesterday_logged) in
     main (fun _ => "") no_repr as_is as_is as_is "coutureone"
          all_channels no_faults late_clock quiet_feeds w1 = (w1, Returned).
Proof.
  assert (Hgate : passes_gate no_faults early_clock yesterday_logged = true)
    by (vm_compute; reflexivity).
  assert (Hday : start_of_day (t_comment early_clock) = start_of_day (t_gate late_clock))
    by reflexivity.
  split; [exact Hgate |]. split; [exact Hday |].
  apply (second_run_same_day_is_idle (fun _ => "") no_repr as_is as_is as_is "coutureone"
           all_channels all_channels no_faults no_faults early_clock late_clock
           quiet_feeds quiet_feeds yesterday_logged Hgate);
    [vm_compute; discriminate | reflexivity | reflexivity | reflexivity | exact Hday].
Defined.

Lemma early_window_is_three_to_ten_witness :
  exists m,
    make_get_up_message (fun _ => "") no_repr as_is as_is "coutureone" quiet_feeds
                        this_morning = inr m
    /\ is_get_up_early m = true.
Proof.
  destruct (make_get_up_message (fun _ => "") no_repr as_is as_is "coutureone"
                                quiet_feeds this_morning) as [e | m] eqn:Hm.
  - vm_compute in Hm. discriminate.
  - exists m. split; [reflexivity |].
    apply (proj2 (early_window_is_three_to_ten (fun _ => "") no_repr as_is as_is
                    "coutureone" quiet_feeds this_morning m Hm)).
    split; [vm_compute; discriminate | reflexivity].
Defined.

(** ** More on the GitHub activity *)

Lemma split_on_nonempty (c : ascii) (s : string) : split_on c s <> [].
Proof.
  destruct s as [| a s]; cbn [split_on]; [discriminate |].
  destruct (Ascii.eqb a c); [discriminate |].
  destruct (split_on c s); discriminate.
Qed.

Lemma split_on_app (c : ascii) (x y : string) :
  split_on c (x ++ String c y) = (split_on c x ++ split_on c y)%list.
Proof.
  induction x as [| a x IH]; cbn [append split_on].
  - now rewrite Ascii.eqb_refl.
  - rewrite IH. destruct (Ascii.eqb a c); [reflexivity |].
    pose proof (split_on_nonempty c x).
    destruct (split_on c x) as [| p ps]; [congruence | reflexivity].
Qed.

Lemma split_on_absent (c : ascii) (s : string) :
  ~ In c (list_ascii_of_string s) -> split_on c s = [s].
Proof.
  induction s as [| a s IH]; cbn [list_ascii_of_string split_on]; [reflexivity |].
  intros Hnot. destruct (Ascii.eqb_spec a c) as [-> | Hne].
  - exfalso. apply Hnot. now left.
  - rewrite IH; [reflexivity |]. intros Hin. apply Hnot. now right.
Qed.

Lemma last_n_app_two {A} (l : list A) (a b : A) : last_n 2 (l ++ [a; b]) = [a; b].
Proof.
  unfold last_n. rewrite length_app. cbn [List.length].
  replace (List.length l + 2 - 2)%nat with (List.length l + 0)%nat by lia.
  now rewrite skipn_app, Nat.add_0_r, skipn_all, Nat.sub_diag.
Qed.

(** X5: for a URL that ends in [/owner/repo], with no slash inside [owner]
    or [repo], the repository name is [owner/repo], whatever comes before;
    a string without any slash is returned as it is. *)
Theorem repo_name_is_last_two_segments :
  (forall base owner repo,
      ~ In "/"%char (list_ascii_of_string owner) ->
      ~ In "/"%char (list_ascii_of_string repo) ->
      _get_repo_name_from_url (base ++ "/" ++ owner ++ "/" ++ repo) = owner ++ "/" ++ repo)
  /\ (forall url,
         ~ In "/"%char (list_ascii_of_string url) -> _get_repo_name_from_url url = url).
Proof.
  split.
  - intros base owner repo Ho Hr. unfold _get_repo_name_from_url.
    change (base ++ "/" ++ owner ++ "/" ++ repo)
      with (base ++ String "/" (owner ++ String "/" repo)).
    rewrite split_on_app, split_on_app, (split_on_absent _ owner Ho),
      (split_on_absent _ repo Hr).
    cbn [app]. now rewrite last_n_app_two.
  - intros url Hu. unfold _get_repo_name_from_url.
    now rewrite (split_on_absent _ url Hu).
Qed.

Lemma repo_name_is_last_two_segments_witness :
  _get_repo_name_from_url "https://api.github.com/repos/coutureone/2026" = "coutureone/2026".
Proof.
  destruct repo_name_is_last_two_segments as [H _].
  apply (H "https://api.github.com/repos" "coutureone" "2026");
    cbn; intros H'; repeat (destruct H' as [H' | H']; [discriminate |]); exact H'.
Defined.





(** X7: the window of yesterday is the 24 hours that end one microsecond
    before the Shanghai day of now starts; it holds the instant 24 hours
    before now, and never now itself. *)
Theorem yesterday_window_is_previous_day (now : Z) :
  let '(yesterday_start, yesterday_end) := yesterday_window now in
  yesterday_end + 1 = start_of_day now
  /\ yesterday_end - yesterday_start = usec_per_day - 1
  /\ yesterday_start <= now - usec_per_day <= yesterday_end
  /\ yesterday_end < now.
Proof.
  unfold yesterday_window, end_of_day, start_of_day, subtract_day.
  unfold usec_per_day, utc_offset, usec_per_sec.
  Z.div_mod_to_equations. lia.
Qed.

(** ** The two substitutions *)

Lemma append_assoc (a b c : string) : (a ++ b) ++ c = a ++ (b ++ c).
Proof. induction a as [| x a IH]; cbn [append]; [reflexivity | now rewrite IH]. Qed.

Lemma append_empty_r (a : string) : a ++ "" = a.
Proof. induction a as [| x a IH]; cbn [append]; [reflexivity | now rewrite IH]. Qed.

Lemma length_append (a b : string) :
  String.length (a ++ b) = (String.length a + String.length b)%nat.
Proof. induction a as [| x a IH]; cbn [append String.length]; [reflexivity | now rewrite IH]. Qed.

Lemma span_not_stops (c : ascii) (run rest : string) :
  ~ In c (list_ascii_of_string run) ->
  span_not c (run ++ String c rest) = (run, String c rest).
Proof.
  induction run as [| a run IH]; cbn [append span_not list_ascii_of_string]; intros Hnot.
  - now rewrite Ascii.eqb_refl.
  - destruct (Ascii.eqb_spec a c) as [-> | Hne]; [exfalso; apply Hnot; now left |].
    rewrite IH; [reflexivity |]. intros Hin. apply Hnot. now right.
Qed.

Lemma span_not_append (c : ascii) (s run rest : string) :
  span_not c s = (run, rest) -> s = run ++ rest.
Proof.
  revert run rest. induction s as [| a s IH]; cbn [span_not]; intros run rest.
  - now intros [= <- <-].
  - destruct (Ascii.eqb a c); [now intros [= <- <-] |].
    destruct (span_not c s) as [run' rest']. intros [= <- <-].
    cbn [append]. now rewrite (IH run' rest' eq_refl).
Qed.

Lemma strip_prefix_append (p s : string) : strip_prefix p (p ++ s) = Some s.
Proof.
  induction p as [| a p IH]; cbn [append strip_prefix]; [reflexivity |].
  now rewrite Ascii.eqb_refl.
Qed.

Lemma strip_prefix_inv (p s rest : string) :
  strip_prefix p s = Some rest -> s = p ++ rest.
Proof.
  revert s. induction p as [| a p IH]; intros s; cbn [strip_prefix append].
  - now intros [= <-].
  - destruct s as [| b s]; [discriminate |].
    destruct (Ascii.eqb_spec a b) as [<- | Hne]; [| discriminate].
    intros H. now rewrite (IH s H).
Qed.

Lemma contains_prefix (p s rest : string) :
  strip_prefix p s = Some rest -> contains p s = true.
Proof. intros H. destruct s; cbn [contains]; now rewrite H. Qed.

Lemma contains_append (p a b : string) : contains p (a ++ p ++ b) = true.
Proof.
  induction a as [| x a IH]; cbn [append].
  - apply (contains_prefix p _ b), strip_prefix_append.
  - cbn [contains]. destruct (strip_prefix p (String x (a ++ p ++ b))); [reflexivity | exact IH].
Qed.

Lemma contains_tail (p : string) (c : ascii) (s : string) :
  contains p (String c s) = false -> contains p s = false.
Proof.
  cbn [contains]. destruct (strip_prefix p (String c s)); [discriminate | auto].
Qed.

(** *** [strip_tags] *)

Lemma strip_tags_from_skip (x y : string) (k : nat) :
  strip_tags_from (String.length x + k) (x ++ y) = strip_tags_from k y.
Proof.
  induction x as [| a x IH]; cbn [String.length append Nat.add]; [reflexivity |].
  cbn [strip_tags_from]. exact IH.
Qed.

Lemma strip_tags_from_plain (pre rest : string) :
  ~ In "<"%char (list_ascii_of_string pre) ->
  strip_tags_from 0 (pre ++ rest) = pre ++ strip_tags_from 0 rest.
Proof.
  induction pre as [| a pre IH]; cbn [append list_ascii_of_string]; intros Hnot;
    [reflexivity |].
  cbn [strip_tags_from].
  destruct (Ascii.eqb_spec a "<") as [-> | Hne]; [exfalso; apply Hnot; now left |].
  rewrite IH; [reflexivity |]. intros Hin. apply Hnot. now right.
Qed.

Lemma strip_tags_from_length (s : string) (k : nat) :
  (String.length (strip_tags_from k s) <= String.length s)%nat.
Proof.
  revert k. induction s as [| a s IH]; intros k; cbn [strip_tags_from String.length];
    [lia |].
  destruct k as [| k]; [| specialize (IH k); lia].
  destruct (Ascii.eqb a "<").
  - destruct (tag_length s) as [n |].
    + specialize (IH n). lia.
    + cbn [String.length]. specialize (IH 0%nat). lia.
  - cbn [String.length]. specialize (IH 0%nat). lia.
Qed.

(** X8: [re.sub(r'<[^>]+>', '', text)] as the Baidu normalizer applies it: a
    text without [<] is unchanged; a tag [<...>] with at least one
    character inside and no [>] inside is removed, the text before it being
    kept; the result is never longer than the text. *)
Theorem strip_tags_removes_tags :
  (forall text, ~ In "<"%char (list_ascii_of_string text) -> strip_tags text = text)
  /\ (forall pre c tag post,
         ~ In "<"%char (list_ascii_of_string pre) ->
         ~ In ">"%char (list_ascii_of_string (String c tag)) ->
         strip_tags (pre ++ "<" ++ String c tag ++ ">" ++ post) = pre ++ strip_tags post)
  /\ (forall text, (String.length (strip_tags text) <= String.length text)%nat).
Proof.
  split; [| split].
  - intros text Hnot. unfold strip_tags.
    rewrite <- (append_empty_r text) at 1.
    rewrite (strip_tags_from_plain text "" Hnot). cbn [strip_tags_from].
    apply append_empty_r.
  - intros pre c tag post Hpre Htag. unfold strip_tags.
    rewrite (strip_tags_from_plain _ _ Hpre). f_equal.
    cbn [append strip_tags_from]. rewrite Ascii.eqb_refl.
    change (String c (tag ++ String ">" post)) with (String c tag ++ String ">" post).
    unfold tag_length. rewrite (span_not_stops _ _ _ Htag).
    rewrite <- (strip_tags_from_skip (tag ++ ">") post 0).
    rewrite length_append, append_assoc. cbn [String.length append].
    f_equal. lia.
  - intros text. apply strip_tags_from_length.
Qed.

Lemma strip_tags_removes_tags_witness :
  strip_tags ("Event " ++ "<" ++ String "b" "" ++ ">" ++ "A</b>") = "Event A".
Proof.
  destruct strip_tags_removes_tags as (_ & Htag & _).
  rewrite Htag.
  - vm_compute. reflexivity.
  - cbn. intros H'; repeat (destruct H' as [H' | H']; [discriminate |]); exact H'.
  - cbn. intros H'; repeat (destruct H' as [H' | H']; [discriminate |]); exact H'.
Defined.

(** *** [remove_github_links] *)

Lemma span_not_rest (c : ascii) (s run rest : string) :
  span_not c s = (run, rest) -> rest = "" \/ exists t, rest = String c t.
Proof.
  revert run rest. induction s as [| a s IH]; cbn [span_not]; intros run rest.
  - intros [= <- <-]. now left.
  - destruct (Ascii.eqb_spec a c) as [-> | Hne]; [intros [= <- <-]; right; eauto |].
    destruct (span_not c s) as [run' rest']. intros [= <- <-]. now apply (IH run').
Qed.

Lemma github_link_inv (s label : string) (n : nat) :
  github_link s = Some (label, n) -> exists target, s = label ++ link_opening ++ target.
Proof.
  unfold github_link.
  destruct (span_not "]" s) as [run rest] eqn:Hspan.
  destruct run as [| a run]; [discriminate |].
  destruct rest as [| b after]; [discriminate |].
  destruct (strip_prefix github_prefix after) as [target |] eqn:Hprefix; [| discriminate].
  destruct (span_not ")" target) as [path rest'].
  destruct path as [| x path]; [discriminate |].
  destruct rest' as [| y rest']; [discriminate |].
  intros [= <- _]. exists target.
  destruct (span_not_rest _ _ _ _ Hspan) as [Hnil | [t Ht]]; [discriminate |].
  injection Ht as -> <-.
  apply span_not_append in Hspan. apply strip_prefix_inv in Hprefix.
  rewrite Hspan, Hprefix. reflexivity.
Qed.

Lemma remove_links_from_skip (x y : string) (k : nat) :
  remove_links_from (String.length x + k) (x ++ y) = remove_links_from k y.
Proof.
  induction x as [| a x IH]; cbn [String.length append Nat.add]; [reflexivity |].
  cbn [remove_links_from]. exact IH.
Qed.

Lemma remove_links_from_plain (pre rest : string) :
  ~ In "["%char (list_ascii_of_string pre) ->
  remove_links_from 0 (pre ++ rest) = pre ++ remove_links_from 0 rest.
Proof.
  induction pre as [| a pre IH]; cbn [append list_ascii_of_string]; intros Hnot;
    [reflexivity |].
  cbn [remove_links_from].
  destruct (Ascii.eqb_spec a "[") as [-> | Hne]; [exfalso; apply Hnot; now left |].
  rewrite IH; [reflexivity |]. intros Hin. apply Hnot. now right.
Qed.

Lemma remove_links_from_no_opening (text : string) :
  contains link_opening text = false -> remove_links_from 0 text = text.
Proof.
  induction text as [| a text IH]; [reflexivity |]. intros Hnone.
  pose proof (contains_tail _ _ _ Hnone) as Htail.
  cbn [remove_links_from].
  destruct (Ascii.eqb a "[").
  - destruct (github_link text) as [[label n] |] eqn:Hlink.
    + apply github_link_inv in Hlink. destruct Hlink as [target ->].
      now rewrite contains_append in Htail.
    + now rewrite IH.
  - now rewrite IH.
Qed.

Lemma github_link_matches (c d : ascii) (label path post : string) :
  ~ In "]"%char (list_ascii_of_string (String c label)) ->
  ~ In ")"%char (list_ascii_of_string (String d path)) ->
  github_link (String c label ++ link_opening ++ String d path ++ ")" ++ post)
  = Some (String c label,
          (String.length (String c label ++ link_opening ++ String d path ++ ")"))).
Proof.
  intros Hlabel Hpath. unfold github_link.
  change (String c label ++ link_opening ++ String d path ++ ")" ++ post)
    with (String c label ++ String "]" (github_prefix ++ String d path ++ String ")" post)).
  rewrite (span_not_stops _ _ _ Hlabel), strip_prefix_append,
    (span_not_stops _ _ _ Hpath).
  do 2 f_equal. rewrite !length_append. cbn [String.length]. unfold link_opening.
  cbn. lia.
Qed.

(** X9: [remove_github_links] leaves a text unchanged when it holds no
    [link_opening], so links to other sites stay; and it replaces a link
    to github.com, with a non-empty label free of closing brackets and a
    non-empty path free of closing parentheses, by its label, keeping what
    precedes it when that holds no opening bracket. *)
Theorem remove_github_links_keeps_labels :
  (forall text, contains link_opening text = false -> remove_github_links text = text)
  /\ (forall pre c label d path post,
         ~ In "["%char (list_ascii_of_string pre) ->
         ~ In "]"%char (list_ascii_of_string (String c label)) ->
         ~ In ")"%char (list_ascii_of_string (String d path)) ->
         remove_github_links
           (pre ++ "[" ++ String c label ++ link_opening ++ String d path ++ ")" ++ post)
         = pre ++ String c label ++ remove_github_links post).
Proof.
  split; [exact remove_links_from_no_opening |].
  intros pre c label d path post Hpre Hlabel Hpath. unfold remove_github_links.
  rewrite (remove_links_from_plain _ _ Hpre). f_equal.
  change ("[" ++ String c label ++ link_opening ++ String d path ++ ")" ++ post)
    with (String "[" (String c label ++ link_opening ++ String d path ++ ")" ++ post)).
  cbn [remove_links_from]. rewrite Ascii.eqb_refl.
  rewrite (github_link_matches c d label path post Hlabel Hpath). f_equal.
  rewrite <- (remove_links_from_skip
                (String c label ++ link_opening ++ String d path ++ ")") post 0).
  rewrite Nat.add_0_r. f_equal.
  rewrite !append_assoc. reflexivity.
Qed.

Lemma remove_github_links_keeps_labels_witness :
  remove_github_links
    ("merged " ++ "[" ++ String "f" "ix" ++ link_opening ++ String "o" "/r/pull/1" ++ ")"
               ++ " and [doc](https://example.com/x)")
  = "merged fix and [doc](https://example.com/x)".
Proof.
  destruct remove_github_links_keeps_labels as [Hkeep Hlink].
  rewrite Hlink.
  - rewrite (Hkeep " and [doc](https://example.com/x)") by reflexivity. reflexivity.
  - cbn. intros H'; repeat (destruct H' as [H' | H']; [discriminate |]); exact H'.
  - cbn. intros H'; repeat (destruct H' as [H' | H']; [discriminate |]); exact H'.
  - cbn. intros H'; repeat (destruct H' as [H' | H']; [discriminate |]); exact H'.
Defined.

(** ** Failing sources *)

(** X10: when both searches and every request for a page of events fail,
    the three pages are all requested, an error not ending the paging, and
    the activity block is the empty string. *)
Theorem all_requests_failing_gives_empty_block
        (pr_data issue_data : api_result SearchItem) (fetch : Z -> api_result Event)
        (now : Z) (username : string) :
  (exists error, pr_data = ApiError error) ->
  (exists error, issue_data = ApiError error) ->
  (forall page, exists error, fetch page = ApiError error) ->
  requested_pages fetch now = [1; 2; 3]
  /\ get_yesterday_github_activity pr_data issue_data fetch now username = inr "".
Proof.
  intros [e1 ->] [e2 ->] Hfetch.
  unfold requested_pages, get_yesterday_github_activity, collect_activities.
  destruct (yesterday_window now) as [s e].
  unfold event_pages. cbn [pages_loop].
  destruct (Hfetch 1) as [m1 ->]. destruct (Hfetch 2) as [m2 ->].
  destruct (Hfetch 3) as [m3 ->]. cbn [fst snd search_activities].
  split; reflexivity.
Qed.

Lemma all_requests_failing_gives_empty_block_witness :
  requested_pages (fun _ => ApiError "请求出错: timeout") this_morning = [1; 2; 3]
  /\ get_yesterday_github_activity (ApiError "API 请求失败: 403") (ApiError "API 请求失败: 403")
                                   (fun _ => ApiError "请求出错: timeout") this_morning
                                   "coutureone" = inr "".
Proof.
  apply all_requests_failing_gives_empty_block; eauto.
Defined.

(** X11: a provider that does not answer with an ok response whose body is
    a JSON object gives, through either normalizer, the empty list; so does
    an object that lacks the expected key (the month for Baidu, ["events"]
    for Wikimedia). *)
Theorem failed_provider_gives_no_event :
  (forall resp now,
      (forall kvs, resp <> Response true (Some (JObj kvs))) ->
      get_history_today_from_baidu resp now = inr []
      /\ get_history_today_from_wikimedia resp now = inr [])
  /\ (forall kvs now,
         assoc (two_digits (month (in_timezone now))) kvs = None ->
         get_history_today_from_baidu (Response true (Some (JObj kvs))) now = inr [])
  /\ (forall kvs now,
         assoc "events" kvs = None ->
         get_history_today_from_wikimedia (Response true (Some (JObj kvs))) now = inr []).
Proof.
  split; [| split].
  - intros resp now Hnot.
    unfold get_history_today_from_baidu, get_history_today_from_wikimedia.
    destruct resp as [| [|] [[| | | | | kvs] |]]; try (split; reflexivity).
    now destruct (Hnot kvs).
  - intros kvs now Hmissing. unfold get_history_today_from_baidu.
    cbn [negb response_json]. rewrite ret_inr, bind_inr. cbn [dict_get].
    rewrite Hmissing. reflexivity.
  - intros kvs now Hmissing. unfold get_history_today_from_wikimedia.
    cbn [negb response_json]. rewrite ret_inr, bind_inr. cbn [dict_get].
    rewrite Hmissing. reflexivity.
Qed.

Lemma failed_provider_gives_no_event_witness :
  get_history_today_from_baidu (Response true (Some (JArr []))) this_morning = inr []
  /\ get_history_today_from_wikimedia (Response false None) this_morning = inr []
  /\ get_history_today_from_baidu (Response true (Some (JObj [("04", JObj [])])))
                                  this_morning = inr [].
Proof.
  destruct failed_provider_gives_no_event as (Hfail & Hmonth & _).
  split; [| split].
  - apply Hfail. discriminate.
  - apply Hfail. discriminate.
  - apply Hmonth. reflexivity.
Defined.

Lemma filter_py_filter {A} (p : A -> py bool) (q : A -> bool) (xs l : list A) :
  (forall x b, p x = inr b -> b = q x) ->
  filter_py p xs = inr l -> l = filter q xs.
Proof.
  intros Hpq. revert l. induction xs as [| x xs IH]; intros l; cbn [filter_py filter].
  - now intros [= <-].
  - intros H. apply bind_inr_inv in H. destruct H as (b & Hb & H).
    apply bind_inr_inv in H. destruct H as (ys & Hys & H). injection H as <-.
    rewrite <- (Hpq x b Hb), (IH ys Hys). reflexivity.
Qed.

Lemma filter_events_returned (birth_year current_year : Z)
      (events filtered : list HistoricalEvent) :
  filter_events birth_year current_year events = inr filtered ->
  filtered = (if is_empty (lifetime_events birth_year current_year events)
              then positive_events events
              else lifetime_events birth_year current_year events).
Proof.
  unfold filter_events. intros H.
  apply bind_inr_inv in H. destruct H as (first & Hfirst & H).
  apply (filter_py_filter _ (fun e => (birth_year <=? year_value e)
                                        && (year_value e <=? current_year))) in Hfirst.
  - fold (lifetime_events birth_year current_year events) in Hfirst. subst first.
    destruct (is_empty (lifetime_events birth_year current_year events)).
    + apply (filter_py_filter _ (fun e => 0 <? year_value e)) in H; [exact H |].
      intros e b Hb. unfold positive_year in Hb.
      apply bind_inr_inv in Hb. destruct Hb as (y & Hy & Hb). injection Hb as <-.
      now rewrite (as_int_year_value e y Hy).
    + now injection H as <-.
  - intros e b Hb. unfold in_lifetime in Hb.
    apply bind_inr_inv in Hb. destruct Hb as (y & Hy & Hb). injection Hb as <-.
    now rewrite (as_int_year_value e y Hy).
Qed.

Section MoreSelectorProperties.
Variable repr_container : json -> string.
Variable str_strip : string -> string.
Variable convert : string -> string.

(** X12: when both providers give no event, whatever the reason, the
    result of [get_history_today] is one of the filler statements. *)
Theorem no_event_gives_filler
        (g : rng) (wikimedia baidu : http_response) (now birth_year limit : Z) :
  get_history_today_from_wikimedia wikimedia now = inr [] ->
  get_history_today_from_baidu baidu now = inr [] ->
  exists s,
    get_history_today repr_container str_strip convert g wikimedia baidu now
                      birth_year limit = inr s
    /\ In s FALLBACK_INTERESTING_FACTS.
Proof.
  intros Hw Hb. unfold get_history_today, get_history_today_body, fetch_events.
  rewrite Hw, bind_inr. cbn [is_empty]. rewrite Hb, bind_inr.
  unfold select_and_render. cbn [is_empty].
  destruct (random_choice_fallback g) as (s & Hs & Hin).
  rewrite Hs, catch_inr. eauto.
Qed.

(** X13: the events [get_history_today] renders are all taken from the
    fetched list and are either all within [birth_year .. current_year],
    or, when the list has no such event, all of a positive year; with a
    positive birth year no event of year 0 or of a year BCE is ever
    rendered. *)
Theorem rendered_events_are_in_lifetime_or_positive
        (g : rng) (birth_year limit current_year : Z)
        (events : list HistoricalEvent) (s : string) :
  select_and_render repr_container str_strip convert g birth_year limit current_year events
  = inr s ->
  In s FALLBACK_INTERESTING_FACTS
  \/ exists selected result_lines,
       incl selected events
       /\ (Forall (fun e => birth_year <= year_value e <= current_year) selected
           \/ (lifetime_events birth_year current_year events = []
               /\ Forall (fun e => 0 < year_value e) selected))
       /\ (0 < birth_year -> Forall (fun e => 0 < year_value e) selected)
       /\ map_py (render_event repr_container str_strip convert birth_year) selected
          = inr result_lines
       /\ s = history_header ++ join nl result_lines.
Proof.
  unfold select_and_render.
  destruct (random_choice_fallback g) as (filler & Hchoice & Hfiller).
  destruct (is_empty events); [rewrite Hchoice; intros [= <-]; now left |].
  destruct (filter_events birth_year current_year events) as [e | filtered] eqn:Hfilter;
    [discriminate |].
  rewrite bind_inr.
  destruct (is_empty filtered); [rewrite Hchoice; intros [= <-]; now left |].
  destruct (select_events g limit filtered) as [e | selected] eqn:Hselect; [discriminate |].
  rewrite bind_inr.
  destruct (map_py _ selected) as [e | result_lines] eqn:Hlines; [discriminate |].
  rewrite bind_inr. intros [= <-]. right. exists selected, result_lines.
  pose proof (filter_events_returned _ _ _ _ Hfilter) as Hshape.
  apply filter_events_inv in Hfilter. destruct Hfilter as [_ Hincl].
  apply select_events_inv in Hselect. destruct Hselect as (_ & (rest & Hperm) & _).
  assert (Hsel : incl selected filtered).
  { intros x Hx. apply (Permutation_in _ Hperm). apply in_or_app. now left. }
  assert (Hcases :
            Forall (fun e => birth_year <= year_value e <= current_year) selected
            \/ (lifetime_events birth_year current_year events = []
                /\ Forall (fun e => 0 < year_value e) selected)).
  { destruct (lifetime_events birth_year current_year events) as [| e0 l0] eqn:Hlife;
      cbn [is_empty] in Hshape.
    - right. split; [reflexivity |]. apply Forall_forall. intros x Hx.
      apply Hsel in Hx. rewrite Hshape in Hx. unfold positive_events in Hx.
      apply filter_In in Hx. destruct Hx as [_ Hx]. now apply Z.ltb_lt in Hx.
    - left. apply Forall_forall. intros x Hx.
      apply Hsel in Hx. rewrite Hshape, <- Hlife in Hx. unfold lifetime_events in Hx.
      apply filter_In in Hx. destruct Hx as [_ Hx].
      apply andb_true_iff in Hx. rewrite !Z.leb_le in Hx. exact Hx. }
  split; [intros x Hx; auto |]. split; [exact Hcases |].
  split; [| split; [assumption | reflexivity]].
  intros Hbirth. destruct Hcases as [Hall | [_ Hall]]; [| exact Hall].
  eapply Forall_impl; [| exact Hall]. cbn beta. intros. lia.
Qed.

End MoreSelectorProperties.

Lemma no_event_gives_filler_witness :
  get_history_today_from_baidu baidu_untitled (this_morning + usec_per_day) = inr []
  /\ exists s,
       get_history_today no_repr as_is as_is ones ConnectionFailed baidu_untitled
                         (this_morning + usec_per_day) 1999 3 = inr s
       /\ In s FALLBACK_INTERESTING_FACTS.
Proof.
  assert (Hb : get_history_today_from_baidu baidu_untitled (this_morning + usec_per_day)
               = inr []) by (vm_compute; reflexivity).
  split; [exact Hb |].
  exact (no_event_gives_filler no_repr as_is as_is ones ConnectionFailed baidu_untitled
           (this_morning + usec_per_day) 1999 3 eq_refl Hb).
Defined.

Lemma rendered_events_are_in_lifetime_or_positive_witness :
  select_and_render no_repr as_is as_is ones 1999 1 2025
                    (event_of (-44) "Caesar" :: four_events)
  = inr (history_header ++ "• **2010年**：ten （那年我 11 岁）  ").
Proof.
  assert (H : select_and_render no_repr as_is as_is ones 1999 1 2025
                                (event_of (-44) "Caesar" :: four_events)
              = inr (history_header ++ "• **2010年**：ten （那年我 11 岁）  "))
    by (vm_compute; reflexivity).
  destruct (rendered_events_are_in_lifetime_or_positive no_repr as_is as_is ones
              1999 1 2025 _ _ H) as [_ | _]; exact H.
Defined.

(** ** The calendar *)

Lemma all_from_spec (p : Z -> bool) (n : nat) (i : Z) :
  all_from n i p = true -> forall j, i <= j < i + Z.of_nat n -> p j = true.
Proof.
  revert i. induction n as [| n IH]; intros i H j Hj; [lia |].
  cbn [all_from] in H. apply andb_true_iff in H. destruct H as [Hi Hrest].
  destruct (Z.eq_dec j i) as [-> | Hne]; [assumption |].
  apply (IH (i + 1) Hrest). lia.
Qed.

Lemma era_years_ok : all_from 400 0 era_year_ok = true.
Proof. vm_compute. reflexivity. Qed.

Lemma year_of_era_step (doe : Z) :
  0 <= doe < 146096 -> year_of_era doe <= year_of_era (doe + 1).
Proof.
  intros H. unfold year_of_era. apply Z.div_le_mono; [lia |].
  Z.div_mod_to_equations. lia.
Qed.

Lemma year_of_era_mono (a b : Z) :
  0 <= a -> a <= b -> b <= 146096 -> year_of_era a <= year_of_era b.
Proof.
  intros Ha Hab Hb.
  assert (H : forall k : nat, a + Z.of_nat k <= 146096 ->
                              year_of_era a <= year_of_era (a + Z.of_nat k)).
  { induction k as [| k IH]; intros Hk.
    - rewrite Z.add_0_r. lia.
    - etransitivity; [apply IH; lia |].
      replace (a + Z.of_nat (S k)) with (a + Z.of_nat k + 1) by lia.
      apply year_of_era_step. lia. }
  specialize (H (Z.to_nat (b - a))). rewrite Z2Nat.id in H by lia.
  replace (a + (b - a)) with b in H by lia. apply H. lia.
Qed.

Lemma era_year_start_bounds (n : Z) :
  0 <= n <= 399 ->
  0 <= era_year_start n
  /\ era_year_start n + 365 <= era_year_start (n + 1) <= era_year_start n + 366
  /\ era_year_start (n + 1) <= 146097.
Proof.
  intros H. unfold era_year_start. Z.div_mod_to_equations. lia.
Qed.

Lemma era_year_exists (doe : Z) :
  0 <= doe <= 146096 ->
  exists n, 0 <= n <= 399 /\ era_year_start n <= doe < era_year_start (n + 1).
Proof.
  intros H.
  assert (Hk : forall k : nat, (k <= 400)%nat -> doe < era_year_start (Z.of_nat k) ->
                 exists n, 0 <= n <= 399
                           /\ era_year_start n <= doe < era_year_start (n + 1)).
  { induction k as [| k IH]; intros Hle Hlt.
    - change (era_year_start (Z.of_nat 0)) with 0 in Hlt. lia.
    - destruct (Z.le_gt_cases (era_year_start (Z.of_nat k)) doe) as [Hge | Hbelow].
      + exists (Z.of_nat k). split; [lia |]. split; [exact Hge |].
        replace (Z.of_nat k + 1) with (Z.of_nat (S k)) by lia. exact Hlt.
      + apply IH; [lia | exact Hbelow]. }
  apply (Hk 400%nat); [lia |].
  change (era_year_start (Z.of_nat 400)) with 146097. lia.
Qed.

(** The year [civil_from_days] finds is the year the day lies in. *)
Lemma year_of_era_spec (doe : Z) :
  0 <= doe <= 146096 ->
  0 <= year_of_era doe <= 399
  /\ era_year_start (year_of_era doe) <= doe < era_year_start (year_of_era doe + 1).
Proof.
  intros H. destruct (era_year_exists doe H) as (n & Hn & Hlo & Hhi).
  pose proof (era_year_start_bounds n Hn) as (H0 & _ & Hend).
  pose proof (all_from_spec _ _ _ era_years_ok n ltac:(lia)) as Hok.
  unfold era_year_ok in Hok. apply andb_true_iff in Hok.
  destruct Hok as [Hfirst Hlast]. apply Z.eqb_eq in Hfirst, Hlast.
  assert (Hyear : year_of_era doe = n).
  { pose proof (year_of_era_mono (era_year_start n) doe ltac:(lia) Hlo ltac:(lia)).
    pose proof (year_of_era_mono doe (era_year_start (n + 1) - 1)
                                 ltac:(lia) ltac:(lia) ltac:(lia)).
    lia. }
  rewrite Hyear. auto.
Qed.

Lemma total_days_cases (y : Z) :
  (total_days y = 366 /\ y mod 4 = 0 /\ (y mod 100 <> 0 \/ y mod 400 = 0))
  \/ (total_days y = 365 /\ (y mod 4 <> 0 \/ (y mod 100 = 0 /\ y mod 400 <> 0))).
Proof.
  unfold total_days, is_leap_year.
  destruct (Z.eqb_spec (y mod 4) 0), (Z.eqb_spec (y mod 100) 0),
    (Z.eqb_spec (y mod 400) 0); cbn [andb orb negb]; intuition.
Qed.

(** The date [civil_from_days] gives: month and day in range, and the day
    counted from the first of January of its year within the year. *)
Lemma civil_from_days_in_range (days : Z) :
  let '(y, m, d) := civil_from_days days in
  1 <= m <= 12 /\ 1 <= d <= 31
  /\ 1 <= days - days_from_civil y 1 1 + 1 <= total_days y.
Proof.
  unfold civil_from_days.
  set (z := days + 719468). set (era := z / 146097). set (doe := z - era * 146097).
  assert (Hdoe : 0 <= doe <= 146096).
  { subst doe era. Z.div_mod_to_equations. lia. }
  change ((doe - doe / 1460 + doe / 36524 - doe / 146096) / 365) with (year_of_era doe).
  destruct (year_of_era_spec doe Hdoe) as (Hn & Hlo & Hhi).
  set (n := year_of_era doe) in *.
  pose proof (era_year_start_bounds n Hn) as (_ & Hlen & _).
  unfold era_year_start in Hlo, Hhi, Hlen.
  assert (Hz : days = doe + era * 146097 - 719468) by (subst doe z; lia).
  clearbody n doe era. clear z. subst days.
  set (doy := doe - (365 * n + n / 4 - n / 100)).
  assert (Hdoy : 0 <= doy <= 365).
  { subst doy. Z.div_mod_to_equations. lia. }
  set (mp := (5 * doy + 2) / 153).
  assert (Hmp : 0 <= mp <= 11 /\ (mp < 10 <-> doy < 306)).
  { subst mp. Z.div_mod_to_equations. lia. }
  set (d := doy - (153 * mp + 2) / 5 + 1).
  assert (Hd : 1 <= d <= 31).
  { subst d mp. Z.div_mod_to_equations. lia. }
  cbv zeta.
  destruct (Z.ltb_spec mp 10) as [Hearly | Hlate].
  - (* March to December *)
    destruct (Z.leb_spec (mp + 3) 2); [lia |].
    split; [lia |]. split; [exact Hd |].
    unfold days_from_civil.
    change (1 <=? 2) with true. change (2 <? 1) with false. cbv iota.
    change ((153 * (1 + 9) + 2) / 5 + 1 - 1) with 306.
    destruct (total_days_cases (n + era * 400)) as [(-> & H4 & H100) | (-> & H4)];
      subst doy; Z.div_mod_to_equations; lia.
  - (* January and February *)
    destruct (Z.leb_spec (mp - 9) 2); [| lia].
    split; [lia |]. split; [exact Hd |].
    unfold days_from_civil.
    change (1 <=? 2) with true. change (2 <? 1) with false. cbv iota.
    change ((153 * (1 + 9) + 2) / 5 + 1 - 1) with 306.
    destruct (total_days_cases (n + era * 400 + 1)) as [(-> & H4 & H100) | (-> & H4)];
      subst doy; Z.div_mod_to_equations; lia.
Qed.

Lemma in_timezone_in_range (t : Z) :
  let dt := in_timezone t in
  1 <= month dt <= 12 /\ 1 <= day dt <= 31
  /\ 0 <= hour dt <= 23 /\ 0 <= minute dt <= 59 /\ 0 <= second dt <= 59
  /\ 1 <= day_of_year dt <= total_days (year dt).
Proof.
  unfold in_timezone.
  pose proof (civil_from_days_in_range ((t + utc_offset) / usec_per_day)) as Hrange.
  destruct (civil_from_days ((t + utc_offset) / usec_per_day)) as [[y m] d].
  cbn [year month day hour minute second day_of_year].
  destruct Hrange as (Hm & Hd & Hdoy).
  split; [exact Hm |]. split; [exact Hd |].
  pose proof (Z.mod_pos_bound (t + utc_offset) usec_per_day eq_refl) as Hbound.
  set (x := (t + utc_offset) mod usec_per_day) in *. clearbody x.
  unfold usec_per_day, usec_per_sec in *.
  repeat split; try (Z.div_mod_to_equations; lia); apply Hdoy.
Qed.

(** C9: a year counts 366 days exactly when it is divisible by 4 and not by
    100, or divisible by 400, and 365 otherwise; on day [d] of the year the
    bar is 20 slots, the first [floor (d / total_days * 20)] of them filled
    and the others empty, and it is this bar that opens what
    [get_year_progress] returns at every instant of that day; every
    instant falls on such a day.  The program computes the number of filled
    slots in binary64 arithmetic; it agrees with the exact floor on every
    day. *)
Theorem year_progress_bar_floor (format_1f : float -> string) (y d : Z) :
  1 <= d <= total_days y ->
  (is_leap_year y = true <-> (4 | y) /\ (~ (100 | y) \/ (400 | y)))
  /\ total_days y = (if is_leap_year y then 366 else 365)
  /\ (exists filled : nat,
         Z.of_nat filled = 20 * d / total_days y
         /\ (filled <= 20)%nat
         /\ List.length (repeat "█" filled ++ repeat "░" (20 - filled)) = 20%nat
         /\ progress_bar y d =
              inr (String.concat "" (repeat "█" filled ++ repeat "░" (20 - filled)))
         /\ forall now,
              year (in_timezone now) = y -> day_of_year (in_timezone now) = d ->
              get_year_progress format_1f now
              = inr (String.concat "" (repeat "█" filled ++ repeat "░" (20 - filled))
                       ++ " "
                       ++ format_1f (PrimFloat.mul (true_div d (total_days y))
                                                   (float_of_int 100))
                       ++ "% (" ++ str_of_int d ++ "/" ++ str_of_int (total_days y)
                       ++ ")"))
  /\ (forall now,
         1 <= day_of_year (in_timezone now) <= total_days (year (in_timezone now))).
Proof.
  intros Hd. split; [apply is_leap_year_spec |]. split; [reflexivity |].
  split; [| intros now; apply (in_timezone_in_range now)].
  assert (Htot : total_days y = 365 \/ total_days y = 366).
  { unfold total_days. destruct (is_leap_year y); auto. }
  assert (Hq : 0 <= 20 * d / total_days y <= 20).
  { split.
    - apply Z.div_pos; lia.
    - apply Z.div_le_upper_bound; lia. }
  exists (Z.to_nat (20 * d / total_days y)).
  split; [lia |]. split; [lia |]. split.
  { rewrite length_app, !repeat_length. lia. }
  assert (Hbar : progress_bar y d
                 = inr (String.concat ""
                          (repeat "█" (Z.to_nat (20 * d / total_days y))
                             ++ repeat "░" (20 - Z.to_nat (20 * d / total_days y))))).
  { unfold progress_bar. rewrite (filled_blocks_floor y d Hd), bind_inr, ret_inr.
    unfold str_mul, progress_bar_width. rewrite concat_empty_app.
    do 4 f_equal. lia. }
  split; [exact Hbar |].
  intros now Hy Hdoy. unfold get_year_progress. rewrite Hy, Hdoy, Hbar, bind_inr.
  reflexivity.
Qed.

Lemma year_progress_bar_floor_witness :
  1 <= 65 <= total_days 2025
  /\ progress_bar 2025 65 = inr "███░░░░░░░░░░░░░░░░░"
  /\ get_year_progress (fun _ => "17.8") this_morning
     = inr "███░░░░░░░░░░░░░░░░░ 17.8% (65/365)".
Proof.
  assert (Hd : 1 <= 65 <= total_days 2025) by (vm_compute; split; discriminate).
  split; [exact Hd |].
  destruct (year_progress_bar_floor (fun _ => "17.8") 2025 65 Hd)
    as (_ & _ & (filled & Hf & _ & _ & Hbar & Hnow) & _).
  change (20 * 65 / total_days 2025) with 3 in Hf.
  assert (filled = 3%nat) as -> by lia.
  split; [rewrite Hbar; reflexivity |].
  rewrite (Hnow this_morning); [reflexivity | reflexivity | reflexivity].
Defined.

(** X14: for every instant, the day of the year read on the Shanghai clock
    lies between 1 and the number of days of the year, so that
    [get_year_progress] never raises: it returns the bar of 20 slots, with
    [floor (20 * day / total)] of them filled, followed by the percentage
    and the day count. *)
Theorem get_year_progress_always_returns (format_1f : float -> string) (now : Z) :
  let dt := in_timezone now in
  let total := total_days (year dt) in
  1 <= get_day_of_year now <= total
  /\ exists filled : nat,
       Z.of_nat filled = 20 * day_of_year dt / total
       /\ (filled <= 20)%nat
       /\ get_year_progress format_1f now
          = inr (String.concat "" (repeat "█" filled ++ repeat "░" (20 - filled))
                   ++ " "
                   ++ format_1f (PrimFloat.mul (true_div (day_of_year dt) total)
                                               (float_of_int 100))
                   ++ "% (" ++ str_of_int (day_of_year dt) ++ "/" ++ str_of_int total
                   ++ ")").
Proof.
  intros dt total.
  destruct (in_timezone_in_range now) as (_ & _ & _ & _ & _ & Hdoy).
  fold dt in Hdoy. fold total in Hdoy. split; [exact Hdoy |].
  assert (Htot : total = 365 \/ total = 366).
  { subst total. unfold total_days. destruct (is_leap_year (year dt)); auto. }
  assert (Hq : 0 <= 20 * day_of_year dt / total <= 20).
  { split; [apply Z.div_pos; lia | apply Z.div_le_upper_bound; lia]. }
  exists (Z.to_nat (20 * day_of_year dt / total)).
  split; [lia |]. split; [lia |].
  subst total dt. unfold get_year_progress, progress_bar.
  rewrite (filled_blocks_floor _ _ Hdoy).
  rewrite bind_inr, ret_inr, bind_inr, ret_inr.
  unfold str_mul, progress_bar_width. rewrite concat_empty_app.
  do 5 f_equal. lia.
Qed.

(** X15: over the days of a year the number of filled slots never
    decreases, and the bar is full on the last day of the year only. *)
Theorem bar_fills_on_last_day_only (y d : Z) :
  1 <= d <= total_days y ->
  exists filled,
    filled_blocks d (total_days y) = inr filled
    /\ 0 <= filled <= 20
    /\ (filled = 20 <-> d = total_days y)
    /\ forall d' filled',
         d <= d' <= total_days y ->
         filled_blocks d' (total_days y) = inr filled' ->
         filled <= filled'.
Proof.
  intros Hd.
  assert (Htot : total_days y = 365 \/ total_days y = 366).
  { unfold total_days. destruct (is_leap_year y); auto. }
  exists (20 * d / total_days y).
  split; [now apply filled_blocks_floor |].
  split; [destruct Htot as [Ht | Ht]; rewrite Ht in *; Z.div_mod_to_equations; lia |].
  split; [destruct Htot as [Ht | Ht]; rewrite Ht in *; Z.div_mod_to_equations; lia |].
  intros d' filled' Hd' Hfilled'.
  rewrite (filled_blocks_floor y d') in Hfilled' by lia.
  assert (Heq : filled' = 20 * d' / total_days y) by congruence.
  rewrite Heq.
  apply Z.div_le_mono; [destruct Htot as [Ht | Ht]; rewrite Ht; lia | lia].
Qed.

Lemma bar_fills_on_last_day_only_witness :
  1 <= 364 <= total_days 2025
  /\ filled_blocks 364 (total_days 2025) = inr 19
  /\ filled_blocks 365 (total_days 2025) = inr 20.
Proof.
  assert (H : 1 <= 364 <= total_days 2025) by (vm_compute; split; discriminate).
  split; [exact H |].
  destruct (bar_fills_on_last_day_only 2025 364 H) as (filled & Hf & _).
  split; vm_compute; reflexivity.
Defined.

(** ** The poem *)

Lemma code_points_concat (s : string) : String.concat "" (code_points s) = s.
Proof.
  induction s as [| c s IH]; [reflexivity |].
  cbn [code_points].
  destruct (code_points s) as [| p ps] eqn:E.
  - destruct s as [| c' s']; [reflexivity |].
    cbn [code_points] in E. destruct (code_points s') as [| q qs].
    + discriminate.
    + destruct s' as [| c'' s'']; [discriminate |].
      destruct (is_continuation c''); discriminate.
  - destruct s as [| c' s']; [discriminate |].
    destruct (is_continuation c').
    + rewrite <- IH. destruct ps; reflexivity.
    + rewrite <- IH. reflexivity.
Qed.

Lemma map_py_strs (lines : list string) :
  map_py (fun x => match x with
                   | JStr s => ret s
                   | _ => raise TypeError
                   end) (map JStr lines) = (inr lines : py (list string)).
Proof.
  induction lines as [| l lines IH]; [reflexivity |].
  cbn [map map_py]. rewrite IH. reflexivity.
Qed.

(** X16: [get_one_sentence] never raises: whatever the request gives, it
    returns a poem, and that is [DEFAULT_SENTENCE] when the request failed,
    when the status is not ok, and when the body is not JSON. *)
Theorem get_one_sentence_always_returns (repr_container : json -> string)
    (resp : http_response) :
  (exists s, get_one_sentence repr_container resp = inr s)
  /\ (get_one_sentence repr_container ConnectionFailed = inr DEFAULT_SENTENCE)
  /\ (forall body, get_one_sentence repr_container (Response false body)
                   = inr DEFAULT_SENTENCE)
  /\ (forall ok, get_one_sentence repr_container (Response ok None)
                 = inr DEFAULT_SENTENCE).
Proof.
  split; [| split; [reflexivity | split; [reflexivity |]]].
  - unfold get_one_sentence.
    match goal with |- exists s, catch ?b ?h = inr s => destruct b as [e | s] end.
    + rewrite catch_inl. now exists DEFAULT_SENTENCE.
    + rewrite catch_inr. now exists s.
  - intros [|]; reflexivity.
Qed.

(** X17: when the response is ok and its origin has a non-empty title, a
    non-empty author and a non-empty list of lines, the poem is the title in
    book-title marks, the lines joined by two spaces and a newline, and the
    signature of dynasty and author; a missing dynasty leaves its place
    empty. *)
Theorem poem_is_title_lines_signature (repr_container : json -> string)
    (top inner origin : list (string * json))
    (title author : string) (lines : list string) :
  assoc "data" top = Some (JObj inner) ->
  assoc "origin" inner = Some (JObj origin) ->
  assoc "title" origin = Some (JStr title) -> title <> "" ->
  assoc "author" origin = Some (JStr author) -> author <> "" ->
  assoc "content" origin = Some (JArr (map JStr lines)) -> lines <> [] ->
  get_one_sentence repr_container (Response true (Some (JObj top)))
  = inr ("《" ++ title ++ "》  " ++ nl
             ++ join ("  " ++ nl) lines ++ "  " ++ nl ++ nl
             ++ "—— "
             ++ match assoc "dynasty" origin with
                | Some v => py_format repr_container v
                | None => ""
                end
             ++ "·" ++ author).
Proof.
  intros Hdata Horigin Htitle Ht Hauthor Ha Hcontent Hl.
  unfold get_one_sentence, response_json, dict_get.
  cbn [bind ret Monad_either]. rewrite Hdata. cbn [bind ret Monad_either].
  rewrite Horigin. cbn [bind ret Monad_either].
  rewrite Htitle, Hauthor, Hcontent.
  assert (Htruthy : json_truthy (JArr (map JStr lines)) && json_truthy (JStr title)
                    && json_truthy (JStr author) = true).
  { cbn [json_truthy]. rewrite length_map.
    destruct lines as [| l lines]; [contradiction |].
    destruct (String.eqb_spec title ""); [contradiction |].
    destruct (String.eqb_spec author ""); [contradiction |]. reflexivity. }
  rewrite Htruthy. unfold join_items. rewrite map_py_strs, bind_inr, ret_inr.
  rewrite catch_inr. cbn [py_format].
  destruct (assoc "dynasty" origin) as [v |]; reflexivity.
Qed.

Lemma poem_is_title_lines_signature_witness :
  get_one_sentence no_repr (Response true (Some poem_body))
  = inr ("《静夜思》  " ++ nl
             ++ "床前明月光，  " ++ nl ++ "疑是地上霜。  " ++ nl ++ nl
             ++ "—— 唐·李白").
Proof.
  exact (poem_is_title_lines_signature no_repr
           [("status", JStr "success"); ("data", JObj poem_inner)]
           poem_inner poem_origin "静夜思" "李白"
           ["床前明月光，"; "疑是地上霜。"]
           eq_refl eq_refl eq_refl ltac:(discriminate)
           eq_refl ltac:(discriminate) eq_refl ltac:(discriminate)).
Defined.

(** X18: an origin that lacks a title, an author or the lines, or whose
    lines cannot be joined because one of them is not a str, gives
    [DEFAULT_SENTENCE]. *)
Theorem incomplete_poem_gives_default (repr_container : json -> string)
    (top inner origin : list (string * json)) :
  assoc "data" top = Some (JObj inner) ->
  assoc "origin" inner = Some (JObj origin) ->
  assoc "title" origin = None \/ assoc "author" origin = None
  \/ assoc "content" origin = None
  \/ (exists xs x, assoc "content" origin = Some (JArr xs) /\ In x xs
                   /\ forall s, x <> JStr s) ->
  get_one_sentence repr_container (Response true (Some (JObj top)))
  = inr DEFAULT_SENTENCE.
Proof.
  intros Hdata Horigin Hcases.
  unfold get_one_sentence, response_json, dict_get.
  cbn [bind ret Monad_either]. rewrite Hdata. cbn [bind ret Monad_either].
  rewrite Horigin. cbn [bind ret Monad_either].
  destruct Hcases as [H | [H | [H | (xs & x & H & Hin & Hx)]]]; rewrite H.
  - cbn [json_truthy String.eqb negb]. rewrite andb_false_r. reflexivity.
  - cbn [json_truthy String.eqb negb]. rewrite andb_false_r. reflexivity.
  - cbn [json_truthy List.length Nat.eqb negb andb]. reflexivity.
  - match goal with
    | |- catch (if ?b then _ else _) _ = _ => destruct b; [| reflexivity]
    end.
    assert (Hjoin : exists e, map_py (fun x => match x with
                                               | JStr s => ret s
                                               | _ => raise TypeError
                                               end) xs = (inl e : py (list string))).
    { clear H. induction xs as [| y xs IH]; [contradiction |].
      cbn [map_py]. destruct Hin as [-> | Hin].
      - destruct x; try (exists TypeError; reflexivity). now elim (Hx s).
      - destruct y; try (exists TypeError; reflexivity).
        destruct (IH Hin) as [e He]. exists e.
        cbn [bind ret Monad_either] in He |- *. rewrite He. reflexivity. }
    destruct Hjoin as [e He]. unfold join_items. rewrite He. reflexivity.
Qed.

Lemma incomplete_poem_gives_default_witness :
  get_one_sentence no_repr
    (Response true
       (Some (JObj [("data", JObj [("origin", JObj [("title", JStr "静夜思")])])])))
  = inr DEFAULT_SENTENCE.
Proof.
  exact (incomplete_poem_gives_default no_repr
           [("data", JObj [("origin", JObj [("title", JStr "静夜思")])])]
           [("origin", JObj [("title", JStr "静夜思")])]
           [("title", JStr "静夜思")]
           eq_refl eq_refl (or_intror (or_introl eq_refl))).
Defined.

(** ** The street view *)

Lemma day_seed_same_day (t1 t2 : Z) :
  day_seed t1 = day_seed t2 <-> start_of_day t1 = start_of_day t2.
Proof.
  split.
  - unfold day_seed. intros Hseed.
    pose proof (in_timezone_in_range t1) as (_ & _ & _ & _ & _ & H1).
    pose proof (in_timezone_in_range t2) as (_ & _ & _ & _ & _ & H2).
    assert (Ht1 : total_days (year (in_timezone t1)) <= 366)
      by (unfold total_days; destruct (is_leap_year _); lia).
    assert (Ht2 : total_days (year (in_timezone t2)) <= 366)
      by (unfold total_days; destruct (is_leap_year _); lia).
    assert (Hy : year (in_timezone t1) = year (in_timezone t2)) by lia.
    assert (Hd : day_of_year (in_timezone t1) = day_of_year (in_timezone t2)) by lia.
    clear Hseed H1 H2 Ht1 Ht2.
    unfold in_timezone in Hy, Hd. unfold start_of_day.
    destruct (civil_from_days ((t1 + utc_offset) / usec_per_day)) as [[y1 m1] d1].
    destruct (civil_from_days ((t2 + utc_offset) / usec_per_day)) as [[y2 m2] d2].
    cbn [year day_of_year] in Hy, Hd. subst y2.
    assert (Hdays : (t1 + utc_offset) / usec_per_day = (t2 + utc_offset) / usec_per_day)
      by lia.
    rewrite Hdays. reflexivity.
  - intros H. destruct (same_day_same_date t1 t2 H) as (Hy & _ & _ & Hd).
    unfold day_seed. rewrite Hy, Hd. reflexivity.
Qed.

(** X19: two instants of the same Shanghai day get the same seed, so
    [get_random_street_view] gives the same site for both. *)
Theorem street_view_fixed_within_day (seeded_draw : Z -> nat) (t1 t2 : Z) :
  start_of_day t1 = start_of_day t2 ->
  day_seed t1 = day_seed t2
  /\ get_random_street_view seeded_draw t1 = get_random_street_view seeded_draw t2.
Proof.
  intros H. apply day_seed_same_day in H. split; [exact H |].
  unfold get_random_street_view. rewrite H. reflexivity.
Qed.

Lemma street_view_fixed_within_day_witness :
  start_of_day this_morning = start_of_day (this_morning + 3600 * 1000000)
  /\ get_random_street_view Z.to_nat this_morning
     = get_random_street_view Z.to_nat (this_morning + 3600 * 1000000).
Proof.
  assert (Hday : start_of_day this_morning
                 = start_of_day (this_morning + 3600 * 1000000)) by reflexivity.
  split; [exact Hday |].
  exact (proj2 (street_view_fixed_within_day Z.to_nat _ _ Hday)).
Defined.

(** X20: the seed [year * 1000 + day_of_year] tells the days apart: two
    instants of different Shanghai days never get the same seed. *)
Theorem day_seed_differs_across_days (t1 t2 : Z) :
  start_of_day t1 <> start_of_day t2 -> day_seed t1 <> day_seed t2.
Proof.
  intros Hdiff Hseed. apply Hdiff. now apply day_seed_same_day.
Qed.

Lemma day_seed_differs_across_days_witness :
  start_of_day a_year_ago <> start_of_day this_morning
  /\ day_seed a_year_ago <> day_seed this_morning.
Proof.
  assert (Hdiff : start_of_day a_year_ago <> start_of_day this_morning)
    by (vm_compute; discriminate).
  split; [exact Hdiff |].
  exact (day_seed_differs_across_days a_year_ago this_morning Hdiff).
Defined.

(** X21: [get_random_street_view] never takes its empty-string exit: it
    returns the heading, the name of one of the forty sites and the link to
    that site's address. *)
Theorem street_view_is_a_listed_site (seeded_draw : Z -> nat) (now : Z) :
  exists name url,
    In (name, url) sites
    /\ get_random_street_view seeded_draw now
       = inr ("今日街景：" ++ name ++ nl ++ nl ++ "[开始随机街景之旅](" ++ url ++ ")").
Proof.
  unfold get_random_street_view, random_choice. cbn [choice_draw].
  destruct (nth_error sites (Nat.modulo (seeded_draw (day_seed now)) (List.length sites)))
    as [[name url] |] eqn:E.
  - exists name, url. split; [eapply nth_error_In; eassumption | reflexivity].
  - apply nth_error_None in E.
    pose proof (Nat.mod_upper_bound (seeded_draw (day_seed now)) (List.length sites)) as Hlt.
    change (List.length sites) with 40%nat in *. lia.
Qed.

(** ** The digest as a whole *)

Lemma get_year_progress_returns (format_1f : float -> string) (now : Z) :
  exists s, get_year_progress format_1f now = inr s.
Proof.
  destruct (in_timezone_in_range now) as (_ & _ & _ & _ & _ & Hdoy).
  unfold get_year_progress, progress_bar.
  rewrite (filled_blocks_floor _ _ Hdoy).
  rewrite bind_inr, ret_inr, bind_inr, ret_inr. eauto.
Qed.

Lemma get_yesterday_github_activity_returns
      (pr_data issue_data : api_result SearchItem) (fetch : Z -> api_result Event)
      (now : Z) (username : string) :
  exists s, get_yesterday_github_activity pr_data issue_data fetch now username = inr s.
Proof.
  unfold get_yesterday_github_activity.
  match goal with |- exists s, catch ?b ?h = inr s => destruct b as [e | s] end.
  - rewrite catch_inl. now exists "".
  - rewrite catch_inr. now exists s.
Qed.

Lemma make_get_up_message_returns
      (format_1f : float -> string) (repr_container : json -> string)
      (str_strip convert : string -> string) (username : string)
      (feeds : Feeds) (now : Z) :
  exists m,
    make_get_up_message format_1f repr_container str_strip convert username feeds now
    = inr m.
Proof.
  unfold make_get_up_message.
  destruct (get_year_progress_returns format_1f now) as [yp ->].
  destruct (get_yesterday_github_activity_returns (feed_pr_search feeds)
              (feed_issue_search feeds) (feed_events feeds) now username) as [ga ->].
  destruct (get_history_today_returns repr_container str_strip convert (feed_rng feeds)
              (feed_wikimedia feeds) (feed_baidu feeds) now BIRTH_YEAR 3)
    as (ht & -> & _).
  rewrite !bind_inr, ret_inr. eauto.
Qed.

(** X22: [make_get_up_message] never raises: the year progress, the
    activity block and the history block are always produced, and the
    message carries the poem and the street view as they were fetched and a
    day of the year between 1 and 366. *)
Theorem make_get_up_message_always_returns
        (format_1f : float -> string) (repr_container : json -> string)
        (str_strip convert : string -> string) (username : string)
        (feeds : Feeds) (now : Z) :
  exists m,
    make_get_up_message format_1f repr_container str_strip convert username feeds now
    = inr m
    /\ sentence m = feed_sentence feeds
    /\ street_view m = feed_street_view feeds
    /\ running_info m = feed_running_info feeds
    /\ msg_day_of_year m = get_day_of_year now
    /\ 1 <= msg_day_of_year m <= 366.
Proof.
  unfold make_get_up_message.
  destruct (get_year_progress_returns format_1f now) as [yp ->].
  destruct (get_yesterday_github_activity_returns (feed_pr_search feeds)
              (feed_issue_search feeds) (feed_events feeds) now username) as [ga ->].
  destruct (get_history_today_returns repr_container str_strip convert (feed_rng feeds)
              (feed_wikimedia feeds) (feed_baidu feeds) now BIRTH_YEAR 3)
    as (ht & -> & _).
  rewrite !bind_inr, ret_inr. eexists. split; [reflexivity |].
  cbn [sentence street_view running_info msg_day_of_year].
  repeat split.
  - apply (in_timezone_in_range now).
  - destruct (in_timezone_in_range now) as (_ & _ & _ & _ & _ & Hdoy).
    unfold get_day_of_year.
    assert (total_days (year (in_timezone now)) <= 366)
      by (unfold total_days; destruct (is_leap_year _); lia).
    lia.
Qed.

(** X23: a run of [main] ends with an exception only where the source has
    no handler: when [login] or [u.get_repo] raises the run ends at once
    and changes nothing; when they do not, and reading the comments, the
    constructor of the bot (if Telegram is configured) and
    [issue.create_comment] do not raise either, [main] returns, whatever
    the feeds, the clock, the Telegram send and the DingTalk post do. *)
Theorem main_raises_only_outside_handlers
        (format_1f : float -> string) (repr_container : json -> string)
        (str_strip convert markdownify : string -> string) (username : string)
        (opts : Options) (faults : Faults) (clock : Clock) (feeds : Feeds) (w : World) :
  (login_raises faults = true ->
   fst (main format_1f repr_container str_strip convert markdownify username
             opts faults clock feeds w) = w
   /\ exists e, snd (main format_1f repr_container str_strip convert markdownify username
                          opts faults clock feeds w) = Raised e)
  /\ (login_raises faults = false ->
      get_comments_raises faults = false ->
      tele_token opts = "" \/ tele_chat_id opts = "" \/ telebot_raises faults = false ->
      create_comment_raises faults = false ->
      snd (main format_1f repr_container str_strip convert markdownify username
                opts faults clock feeds w) = Returned).
Proof.
  split.
  - intros Hlogin. unfold main. rewrite Hlogin. split; [reflexivity |].
    now exists RequestException.
  - intros Hlogin Hcomments Hbot Hcreate. unfold main. rewrite Hlogin.
    destruct (find_or_create_issue faults w) as [w0 |]; [| reflexivity].
    rewrite Hcomments.
    destruct (truthy _); [reflexivity |].
    destruct (make_get_up_message_returns format_1f repr_container str_strip convert
                username feeds (t_message clock)) as (m & ->).
    destruct (is_get_up_early m); [| reflexivity].
    unfold dispatch. cbv zeta.
    assert (Hbuilt : nonempty (tele_token opts) && nonempty (tele_chat_id opts)
                     && telebot_raises faults = false).
    { unfold nonempty. destruct Hbot as [-> | [-> | ->]];
        cbn [String.eqb negb andb]; rewrite ?andb_false_r; reflexivity. }
    rewrite Hbuilt, Hcreate. reflexivity.
Qed.

Lemma main_raises_only_outside_handlers_witness :
  fst (main (fun _ => "") no_repr as_is as_is as_is "coutureone"
            all_channels login_refused early_clock quiet_feeds yesterday_logged)
  = yesterday_logged
  /\ snd (main (fun _ => "") no_repr as_is as_is as_is "coutureone"
               all_channels telegram_down early_clock quiet_feeds yesterday_logged)
     = Returned.
Proof.
  split.
  - exact (proj1 (proj1 (main_raises_only_outside_handlers (fun _ => "") no_repr as_is
                           as_is as_is "coutureone" all_channels login_refused
                           early_clock quiet_feeds yesterday_logged) eq_refl)).
  - exact (proj2 (main_raises_only_outside_handlers (fun _ => "") no_repr as_is as_is
                    as_is "coutureone" all_channels telegram_down early_clock
                    quiet_feeds yesterday_logged)
                 eq_refl eq_refl (or_intror (or_intror eq_refl)) eq_refl).
Defined.
